(** * Database scenario validator: a shallow embedding

    The repository generates [test_scenarios_validation.py] twice: first from
    [src/script_11.py], then again (overwriting it) from [src/script_12.py].
    Both versions define [DatabaseScenarioValidator].  The later version is
    embedded in full in [Module V12]; the functions of the earlier version
    that the specification also refers to are embedded in [Module V11].

    What the validator reads from disk is an explicit [World] record
    (existence test, directory enumeration, globbing and text reads that may
    raise).  The mutable [self.results] list is threaded through a small
    state-and-exception monad.  Console output (the [print] calls) and the
    JSON dump of the results are not modelled: they do not influence any
    returned value. *)

From Stdlib Require Import String Ascii List Bool Arith ZArith QArith Lia.
From Stdlib Require Import Permutation Sorted DecimalString.
Import ListNotations.
Local Close Scope Q_scope.
Local Open Scope list_scope.
Local Open Scope string_scope.

Set Implicit Arguments.

(** ** Python values *)

(** Outcome of an operation that may raise; [Raise e] carries [str(e)]. *)
Inductive Res (A : Type) : Type :=
| Ok (a : A)
| Raise (e : string).
Arguments Ok {A} a.
Arguments Raise {A} e.

(** [sub in s] on Python strings: textual containment. *)
Fixpoint str_in (sub s : string) : bool :=
  String.prefix sub s
  || match s with
     | EmptyString => false
     | String _ s' => str_in sub s'
     end.

(** [str.lower()], restricted to ASCII letters (bytes outside [A-Z] are kept). *)
Definition lower_ascii (c : ascii) : ascii :=
  let n := nat_of_ascii c in
  if (65 <=? n)%nat && (n <=? 90)%nat then ascii_of_nat (n + 32) else c.

Fixpoint lower (s : string) : string :=
  match s with
  | EmptyString => EmptyString
  | String c s' => String (lower_ascii c) (lower s')
  end.

(** [repr] of a string made of plain identifier characters, and of a list of
    such strings, as an f-string [{...}] prints them. *)
Definition repr_str (s : string) : string := "'" ++ s ++ "'".

Definition repr_list (l : list string) : string :=
  "[" ++ String.concat ", " (map repr_str l) ++ "]".

(** A Python [dict] from category name to list of paths, in insertion order. *)
Definition Dict := list (string * list string).

Definition keys (d : Dict) : list string := map fst d.
Definition values (d : Dict) : list (list string) := map snd d.

Fixpoint dict_get (k : string) (d : Dict) : option (list string) :=
  match d with
  | [] => None
  | (k', v) :: d' => if String.eqb k k' then Some v else dict_get k d'
  end.

(** [k in d] *)
Definition dict_mem (k : string) (d : Dict) : bool :=
  match dict_get k d with Some _ => true | None => false end.

(** [if k not in d: d[k] = []] followed by [d[k].append(x)] *)
Fixpoint dict_append (k x : string) (d : Dict) : Dict :=
  match d with
  | [] => [(k, [x])]
  | (k', v) :: d' =>
      if String.eqb k k' then (k', (v ++ [x])%list) :: d'
      else (k', v) :: dict_append k x d'
  end.

(** [d[k]] for a key known to be present (the comprehension over
    [violations] only indexes keys taken from [d] itself). *)
Definition dict_index (d : Dict) (k : string) : list string :=
  match dict_get k d with Some v => v | None => [] end.

(** [sum(ls, [])] *)
Definition sum_lists (ls : list (list string)) : list string := concat ls.

(** [x in l] for a collection of strings *)
Definition mem (x : string) (l : list string) : bool :=
  existsb (String.eqb x) l.

(** ** The artifact corpus *)

(** Everything outside the program that a run depends on.  Paths are the
    [str] of the [Path] objects, relative to [repo_root]. *)
Record World : Type := mkWorld {
  (** [(repo_root / p).exists()] *)
  path_exists : string -> bool;
  (** [(repo_root / d).rglob("*.py")], in enumeration order *)
  rglob_py : string -> list string;
  (** [repo_root.glob(pattern)], in enumeration order *)
  glob : string -> list string;
  (** [p.read_text(...)]; raises on unreadable or undecodable files *)
  read_text : string -> Res string;
  (** iteration order of a [set] literal of strings (it depends on the
      interpreter's string hashing), given the elements as written *)
  set_iter : list string -> list string;
  set_iter_perm : forall l, Permutation (set_iter l) l
}.

(** A world whose sets iterate in the order written. *)
Definition world_of (e : string -> bool) (r g : string -> list string)
    (t : string -> Res string) : World :=
  mkWorld e r g t (fun l => l) (@Permutation_refl string).

(** ** Data model shared by both versions *)

Inductive ScenarioType : Type := CONFIG_ONLY | MIXED | LOGIC_HEAVY.

Inductive ViolationType : Type := CRITICAL | WARNING | INFO.

(** [ScenarioType.value] *)
Definition ScenarioType_value (s : ScenarioType) : string :=
  match s with
  | CONFIG_ONLY => "CONFIG_ONLY"
  | MIXED => "MIXED"
  | LOGIC_HEAVY => "LOGIC_HEAVY"
  end.

(** [ScenarioType(s)]: lookup by value, [ValueError] otherwise. *)
Definition ScenarioType_of_value (s : string) : Res ScenarioType :=
  if String.eqb s "CONFIG_ONLY" then Ok CONFIG_ONLY
  else if String.eqb s "MIXED" then Ok MIXED
  else if String.eqb s "LOGIC_HEAVY" then Ok LOGIC_HEAVY
  else Raise (repr_str s ++ " is not a valid ScenarioType").

Definition ScenarioType_eqb (a b : ScenarioType) : bool :=
  match a, b with
  | CONFIG_ONLY, CONFIG_ONLY | MIXED, MIXED | LOGIC_HEAVY, LOGIC_HEAVY => true
  | _, _ => false
  end.

Definition ViolationType_eqb (a b : ViolationType) : bool :=
  match a, b with
  | CRITICAL, CRITICAL | WARNING, WARNING | INFO, INFO => true
  | _, _ => false
  end.

Record ValidationResult : Type := mkResult {
  database : string;
  scenario : ScenarioType;
  check_name : string;
  status : string;  (* PASS, FAIL, WARNING *)
  violation_type : ViolationType;
  message : string;
  details : list string;
  file_references : list string
}.

(** ** State and exceptions *)

(** A method of the validator: reads and extends [self.results], may raise. *)
Definition M (A : Type) : Type :=
  list ValidationResult -> Res (A * list ValidationResult).

Definition ret {A} (a : A) : M A := fun rs => Ok (a, rs).

Definition bind {A B} (m : M A) (f : A -> M B) : M B :=
  fun rs =>
    match m rs with
    | Ok (a, rs') => f a rs'
    | Raise e => Raise e
    end.

Definition lift {A} (r : Res A) : M A :=
  fun rs => match r with Ok a => Ok (a, rs) | Raise e => Raise e end.

Definition get_results : M (list ValidationResult) := fun rs => Ok (rs, rs).

Declare Scope validator_scope.
Delimit Scope validator_scope with validator.
Notation "x <- m ;; k" := (bind m (fun x => k))
  (at level 61, m at next level, right associativity) : validator_scope.
Notation "m ;; k" := (bind m (fun _ => k))
  (at level 61, right associativity) : validator_scope.
Local Open Scope validator_scope.

(** [for x in l: body x] *)
Fixpoint for_each {A} (l : list A) (body : A -> M unit) : M unit :=
  match l with
  | [] => ret tt
  | x :: l' => body x ;; for_each l' body
  end.

(** [_add_result]: build the record and append it to [self.results]. *)
Definition _add_result (database : string) (scenario : ScenarioType)
    (check_name status : string) (violation_type : ViolationType)
    (message : string) (details file_refs : list string) : M unit :=
  fun rs =>
    let result :=
      mkResult database scenario check_name status violation_type message
        details file_refs in
    Ok (tt, (rs ++ [result])%list).

(** [if l:] on a list *)
Definition truthy {A} (l : list A) : bool :=
  match l with [] => false | _ :: _ => true end.

(** * The later version of the validator ([src/script_12.py]) *)
Module V12.

(** [self.scenarios] *)
Definition scenarios : list (string * (string * string * string)) :=
  [ ("periodic_table", ("CONFIG_ONLY", "LOW", "chemistry-team@company.com"));
    ("world_happiness", ("CONFIG_ONLY", "LOW", "analytics-team@company.com"));
    ("titanic", ("CONFIG_ONLY", "LOW", "data-science-team@company.com"));
    ("pagila", ("MIXED", "MEDIUM", "development-team@company.com"));
    ("chinook", ("MIXED", "MEDIUM", "media-team@company.com"));
    ("netflix", ("MIXED", "MEDIUM", "content-team@company.com"));
    ("employees", ("LOGIC_HEAVY", "CRITICAL", "hr-team@company.com"));
    ("lego", ("LOGIC_HEAVY", "CRITICAL", "analytics-team@company.com"));
    ("postgres_air", ("LOGIC_HEAVY", "CRITICAL", "operations-team@company.com")) ].

Definition app_code_files : list (string * string) :=
  [ ("src/config/", "configuration");
    ("src/services/", "service_layer");
    ("src/business/", "business_logic");
    ("src/analytics/", "analytics") ].

(** Body of the inner loop of [_validate_scenario_separation]: the [try]
    block for one [py_file]; a failing read is skipped ([pass]). *)
Definition scan_file (w : World) (database code_type : string)
    (found_references : Dict) (py_file : string) : Dict :=
  match read_text w py_file with
  | Ok content =>
      if str_in database content
      then dict_append code_type py_file found_references
      else found_references
  | Raise _ => found_references
  end.

(** Body of the outer loop, for one [(dir_path, code_type)]. *)
Definition scan_dir (w : World) (database : string)
    (found_references : Dict) (entry : string * string) : Dict :=
  let '(dir_path, code_type) := entry in
  if path_exists w dir_path
  then fold_left (scan_file w database code_type) (rglob_py w dir_path)
         found_references
  else found_references.

(** The value of [found_references] when the two loops have run. *)
Definition find_references (w : World) (database : string) : Dict :=
  fold_left (scan_dir w database) app_code_files [].

Definition _validate_scenario_separation (w : World) (database : string)
    (scenario_type : ScenarioType) : M unit :=
  let found_references := find_references w database in
  match scenario_type with
  | CONFIG_ONLY =>
      if truthy found_references then
        _add_result database scenario_type "config_only_purity" "FAIL"
          CRITICAL "Config-only database has application code references"
          ["Found in: " ++ repr_list (keys found_references)]
          (sum_lists (values found_references))
      else
        _add_result database scenario_type "config_only_purity" "PASS"
          INFO "No application code references (correct)" [] []
  | MIXED =>
      let allowed_types := ["configuration"; "service_layer"] in
      let forbidden_types := ["business_logic"; "analytics"] in
      let violations :=
        filter (fun t => mem t forbidden_types) (keys found_references) in
      if truthy violations then
        _add_result database scenario_type "mixed_scenario_rules" "FAIL"
          CRITICAL "Mixed scenario has forbidden business logic"
          ["Found forbidden: " ++ repr_list violations]
          (sum_lists (map (dict_index found_references) violations))
      else
        let has_allowed :=
          existsb (fun t => dict_mem t found_references) allowed_types in
        if has_allowed then
          _add_result database scenario_type "mixed_scenario_rules" "PASS"
            INFO "Mixed scenario properly implemented"
            ["Found allowed: " ++ repr_list (keys found_references)] []
        else
          _add_result database scenario_type "mixed_scenario_rules" "WARNING"
            WARNING "Mixed scenario has no service layer"
            ["Should have configuration and service references"] []
  | LOGIC_HEAVY =>
      let required_types := set_iter w ["business_logic"; "analytics"] in
      let missing_types :=
        filter (fun t => negb (dict_mem t found_references)) required_types in
      if truthy missing_types then
        _add_result database scenario_type "logic_heavy_complexity" "WARNING"
          WARNING "Logic-heavy scenario missing complex logic"
          ["Missing: " ++ repr_list missing_types] []
      else
        _add_result database scenario_type "logic_heavy_complexity" "PASS"
          INFO "Logic-heavy scenario properly implemented"
          ["Found: " ++ repr_list (keys found_references)] []
  end.

Definition terraform_patterns : list string :=
  [ "terraform_*_databases.tf";
    "terraform_*_critical_databases.tf";
    "terraform_module_*.tf" ].

(** Inner loop over the matches of one pattern, with its [break]. *)
Fixpoint terraform_scan_matches (w : World) (database : string)
    (matches : list string) : bool :=
  match matches with
  | [] => false
  | tf_file :: rest =>
      match read_text w tf_file with
      | Ok content =>
          if str_in database content then true
          else terraform_scan_matches w database rest
      | Raise _ => terraform_scan_matches w database rest
      end
  end.

(** Outer loop over the patterns; stops at the first pattern with a hit. *)
Fixpoint terraform_scan (w : World) (database : string)
    (patterns : list string) : bool :=
  match patterns with
  | [] => false
  | pattern :: rest =>
      if terraform_scan_matches w database (glob w pattern) then true
      else terraform_scan w database rest
  end.

Definition _validate_infrastructure_files (w : World) (database : string)
    (scenario_type : ScenarioType) : M unit :=
  let terraform_found := terraform_scan w database terraform_patterns in
  (if terraform_found then
     _add_result database scenario_type "terraform_config" "PASS"
       INFO "Terraform configuration found" [] []
   else
     _add_result database scenario_type "terraform_config" "FAIL"
       CRITICAL "No Terraform configuration found" [] []) ;;
  let helm_pattern := "helm_values_" ++ database ++ ".yaml" in
  let helm_files := glob w helm_pattern in
  if truthy helm_files then
    _add_result database scenario_type "helm_config" "PASS"
      INFO "Helm configuration found" [] []
  else
    _add_result database scenario_type "helm_config" "WARNING"
      WARNING "No Helm configuration found" [] [].

Definition _validate_monitoring_setup (w : World) (database : string)
    (scenario_type : ScenarioType) : M unit :=
  let monitor_pattern := "datadog_monitor_" ++ database ++ ".yaml" in
  let monitor_files := glob w monitor_pattern in
  match monitor_files with
  | monitor_file :: _ =>
      match read_text w monitor_file with
      | Ok content =>
          let required_elements :=
            [ ScenarioType_value scenario_type;
              "threshold"; "alert"; "database_name" ] in
          let missing :=
            filter (fun elem => negb (str_in (lower elem) (lower content)))
              required_elements in
          if truthy missing then
            _add_result database scenario_type "monitoring_config" "WARNING"
              WARNING "Monitoring config incomplete"
              ["Missing: " ++ repr_list missing] [monitor_file]
          else
            _add_result database scenario_type "monitoring_config" "PASS"
              INFO "Monitoring properly configured" [] [monitor_file]
      | Raise e =>
          _add_result database scenario_type "monitoring_config" "WARNING"
            WARNING ("Error reading monitor config: " ++ e) [] []
      end
  | [] =>
      _add_result database scenario_type "monitoring_config" "FAIL"
        CRITICAL "No monitoring configuration found" [] []
  end.

(** [status_counts], a dict with exactly the keys PASS, FAIL and WARNING. *)
Record StatusCounts : Type := mkCounts {
  n_pass : nat;
  n_fail : nat;
  n_warning : nat
}.

(** [status_counts[s] += 1]; any other key raises [KeyError]. *)
Definition bump (s : string) (c : StatusCounts) : Res StatusCounts :=
  if String.eqb s "PASS" then Ok (mkCounts (S (n_pass c)) (n_fail c) (n_warning c))
  else if String.eqb s "FAIL" then Ok (mkCounts (n_pass c) (S (n_fail c)) (n_warning c))
  else if String.eqb s "WARNING" then Ok (mkCounts (n_pass c) (n_fail c) (S (n_warning c)))
  else Raise (repr_str s).

Fixpoint count_statuses (results : list ValidationResult) (c : StatusCounts)
    : Res StatusCounts :=
  match results with
  | [] => Ok c
  | result :: rest =>
      match bump (status result) c with
      | Ok c' => count_statuses rest c'
      | Raise e => Raise e
      end
  end.

Definition is_critical_failure (r : ValidationResult) : bool :=
  String.eqb (status r) "FAIL" && ViolationType_eqb (violation_type r) CRITICAL.

Definition critical_failures (results : list ValidationResult)
    : list ValidationResult :=
  filter is_critical_failure results.

(** [passes / total * 100 if total else 0], as an exact rational (Python
    evaluates it in binary floating point and prints one decimal). *)
Definition percentage (passes total : nat) : Q :=
  match total with
  | O => 0%Q
  | S _ => (inject_Z (Z.of_nat passes) / inject_Z (Z.of_nat total) * 100)%Q
  end.

Definition overall_compliance (results : list ValidationResult)
    (status_counts : StatusCounts) : Q :=
  percentage (n_pass status_counts) (length results).

Definition _generate_report : M bool :=
  results <- get_results ;;
  status_counts <- lift (count_statuses results (mkCounts 0 0 0)) ;;
  let critical := critical_failures results in
  let _ := overall_compliance results status_counts in
  if truthy critical then ret false else ret true.

(** Body of the loop of [validate_all_scenarios] for one database. *)
Definition validate_one (w : World) (database : string)
    (scenario_type : ScenarioType) : M unit :=
  _validate_scenario_separation w database scenario_type ;;
  _validate_infrastructure_files w database scenario_type ;;
  _validate_monitoring_setup w database scenario_type.

Definition validate_all_scenarios (w : World) : M bool :=
  for_each scenarios
    (fun '(database, (scenario_str, criticality, owner)) =>
       scenario_type <- lift (ScenarioType_of_value scenario_str) ;;
       validate_one w database scenario_type) ;;
  _generate_report.

(** [0 if success else 1] *)
Definition exit_code (success : bool) : Z := if success then 0%Z else 1%Z.

(** [main]: a fresh validator ([results = []]) is run and the exit code
    returned. *)
Definition main (w : World) : Res Z :=
  match validate_all_scenarios w [] with
  | Ok (success, _) => Ok (exit_code success)
  | Raise e => Raise e
  end.

End V12.

(** * The earlier version of the validator ([src/script_11.py])

    Only the checks the specification refers to.  In this version most reads
    are not guarded by a [try], so an unreadable file raises out of the
    check. *)
Module V11.

Record ScenarioDefinition : Type := mkScenarioDefinition {
  name : string;
  scenario_type : ScenarioType;
  criticality : string;
  owner_email : string;
  description : string
}.

(** [str(n)] for a length *)
Definition str_of_nat (n : nat) : string :=
  DecimalString.NilEmpty.string_of_uint (Nat.to_uint n).

Definition terraform_files : list string :=
  [ "terraform/environments/dev/databases.tf";
    "terraform/environments/prod/critical_databases.tf";
    "terraform/modules/database/main.tf" ].

(** The loop of [_validate_terraform_configuration]; [read_text] is unguarded. *)
Fixpoint terraform_references (w : World) (database : string)
    (files found_references : list string) : Res (list string) :=
  match files with
  | [] => Ok found_references
  | tf_file :: rest =>
      if path_exists w tf_file then
        match read_text w tf_file with
        | Ok content =>
            if str_in database content
            then terraform_references w database rest
                   (found_references ++ [tf_file])%list
            else terraform_references w database rest found_references
        | Raise e => Raise e
        end
      else terraform_references w database rest found_references
  end.

Definition _validate_terraform_configuration (w : World) (database : string)
    (scenario_def : ScenarioDefinition) : M unit :=
  found_references <- lift (terraform_references w database terraform_files []) ;;
  if truthy found_references then
    _add_result database (scenario_type scenario_def) "terraform_config" "PASS"
      INFO "Terraform configurations found"
      ["Found in " ++ str_of_nat (length found_references) ++ " files"]
      found_references
  else
    _add_result database (scenario_type scenario_def) "terraform_config" "FAIL"
      CRITICAL "No Terraform configurations found"
      ["Database must have infrastructure definitions"] [].

(** [any(database in f.read_text() for f in files if f.exists())]: stops at
    the first hit, raises at the first unreadable file met before one. *)
Fixpoint any_reference (w : World) (database : string) (files : list string)
    : Res bool :=
  match files with
  | [] => Ok false
  | f :: rest =>
      if path_exists w f then
        match read_text w f with
        | Ok content =>
            if str_in database content then Ok true
            else any_reference w database rest
        | Raise e => Raise e
        end
      else any_reference w database rest
  end.

Definition _validate_logic_heavy_rules (w : World) (database : string)
    (scenario_def : ScenarioDefinition) : M unit :=
  let business_files := glob w "src/business/**/*.py" in
  let analytics_files := glob w "src/analytics/**/*.py" in
  has_business <- lift (any_reference w database business_files) ;;
  has_analytics <- lift (any_reference w database analytics_files) ;;
  if has_business || has_analytics then
    let components :=
      ((if has_business then ["business logic"] else [])
       ++ (if has_analytics then ["analytics"] else []))%list in
    _add_result database (scenario_type scenario_def) "logic_heavy_complexity"
      "PASS" INFO "Logic-heavy scenario properly implemented"
      ["Has: " ++ repr_list components] []
  else
    _add_result database (scenario_type scenario_def) "logic_heavy_complexity"
      "FAIL" CRITICAL "Logic-heavy scenario lacks complex logic"
      ["Missing business logic and analytics"] [].

Definition _validate_monitoring_configuration (w : World) (database : string)
    (scenario_def : ScenarioDefinition) : M unit :=
  let monitor_file :=
    "monitoring/database-monitors/" ++ database ++ "_monitor.yaml" in
  if path_exists w monitor_file then
    match read_text w monitor_file with
    | Ok content =>
        let required_elements :=
          [ "threshold"; "alert"; "owner";
            ScenarioType_value (scenario_type scenario_def) ] in
        let missing_elements :=
          filter (fun elem => negb (str_in (lower elem) (lower content)))
            required_elements in
        if truthy missing_elements then
          _add_result database (scenario_type scenario_def) "monitoring_config"
            "WARNING" WARNING "Monitoring config incomplete"
            ["Missing: " ++ repr_list missing_elements] [monitor_file]
        else
          _add_result database (scenario_type scenario_def) "monitoring_config"
            "PASS" INFO "Monitoring properly configured" [] [monitor_file]
    | Raise e =>
        _add_result database (scenario_type scenario_def) "monitoring_config"
          "FAIL" WARNING ("Monitoring config error: " ++ e) [] [monitor_file]
    end
  else
    _add_result database (scenario_type scenario_def) "monitoring_config"
      "FAIL" CRITICAL "No monitoring configuration found" [] [].

Definition _validate_documentation (w : World) (database : string)
    (scenario_def : ScenarioDefinition) : M unit :=
  let doc_file := "docs/database-ownership.md" in
  if path_exists w doc_file then
    content <- lift (read_text w doc_file) ;;
    if str_in database content && str_in (owner_email scenario_def) content then
      _add_result database (scenario_type scenario_def) "documentation" "PASS"
        INFO "Documentation complete" [] [doc_file]
    else
      _add_result database (scenario_type scenario_def) "documentation"
        "WARNING" WARNING "Documentation incomplete"
        ["Missing database or owner info"] [doc_file]
  else
    _add_result database (scenario_type scenario_def) "documentation" "FAIL"
      CRITICAL "No documentation found" [] [].

(** The three values of one pass of the [for scenario_type in ScenarioType]
    loop of [_generate_validation_report]. *)
Definition scenario_results (results : list ValidationResult)
    (scenario_type : ScenarioType) : list ValidationResult :=
  filter (fun r => ScenarioType_eqb (scenario r) scenario_type) results.

Definition passes (results : list ValidationResult)
    (scenario_type : ScenarioType) : nat :=
  length (filter (fun r => String.eqb (status r) "PASS")
            (scenario_results results scenario_type)).

Definition total (results : list ValidationResult)
    (scenario_type : ScenarioType) : nat :=
  length (scenario_results results scenario_type).

(** [(passes / total * 100) if total > 0 else 0], as an exact rational
    (Python evaluates it in binary floating point and prints one decimal). *)
Definition compliance_rate (results : list ValidationResult)
    (scenario_type : ScenarioType) : Q :=
  let passes := passes results scenario_type in
  let total := total results scenario_type in
  if (0 <? total)%nat
  then (inject_Z (Z.of_nat passes) / inject_Z (Z.of_nat total) * 100)%Q
  else 0%Q.

(** What the scenario-compliance loop prints, one entry per scenario type. *)
Definition scenario_compliance (results : list ValidationResult)
    : list (string * Q * nat * nat) :=
  map (fun scenario_type =>
         (ScenarioType_value scenario_type,
          compliance_rate results scenario_type,
          passes results scenario_type,
          total results scenario_type))
    [CONFIG_ONLY; MIXED; LOGIC_HEAVY].

Definition _generate_validation_report : M bool :=
  results <- get_results ;;
  status_counts <- lift (V12.count_statuses results (V12.mkCounts 0 0 0)) ;;
  let critical_failures := V12.critical_failures results in
  let _ := scenario_compliance results in
  let _ := V12.overall_compliance results status_counts in
  if truthy critical_failures then ret false
  else if (0 <? V12.n_fail status_counts)%nat then ret true
  else ret true.

End V11.

(** * The remaining checks, the run and [main] of the earlier version *)

(** A loop whose body may raise: the first exception ends it. *)
Fixpoint fold_res {A B} (f : A -> B -> Res A) (l : list B) (a : A) : Res A :=
  match l with
  | [] => Ok a
  | x :: l' =>
      match f a x with
      | Ok a' => fold_res f l' a'
      | Raise e => Raise e
      end
  end.

(** [ViolationType.value] *)
Definition ViolationType_value (v : ViolationType) : string :=
  match v with
  | CRITICAL => "CRITICAL"
  | WARNING => "WARNING"
  | INFO => "INFO"
  end.

(** One record of [results_data], the list handed to [json.dump]. *)
Record ResultData : Type := mkResultData {
  rd_database : string;
  rd_scenario : string;
  rd_check : string;
  rd_status : string;
  rd_violation_type : string;
  rd_message : string;
  rd_details : list string;
  rd_files : list string
}.

(** The loop that builds [results_data] (the same in both versions). *)
Definition results_data (results : list ValidationResult) : list ResultData :=
  map (fun result =>
         mkResultData (database result)
           (ScenarioType_value (scenario result))
           (check_name result)
           (status result)
           (ViolationType_value (violation_type result))
           (message result)
           (details result)
           (file_references result))
    results.

Module V11_rest.

(** [self.scenarios] *)
Definition scenarios : list (string * V11.ScenarioDefinition) :=
  [ ("periodic_table",
     V11.mkScenarioDefinition "periodic_table" CONFIG_ONLY "LOW"
       "chemistry-team@company.com" "Chemical elements reference");
    ("world_happiness",
     V11.mkScenarioDefinition "world_happiness" CONFIG_ONLY "LOW"
       "analytics-team@company.com" "World happiness index data");
    ("titanic",
     V11.mkScenarioDefinition "titanic" CONFIG_ONLY "LOW"
       "data-science-team@company.com" "Historical passenger data");
    ("pagila",
     V11.mkScenarioDefinition "pagila" MIXED "MEDIUM"
       "development-team@company.com" "DVD rental store database");
    ("chinook",
     V11.mkScenarioDefinition "chinook" MIXED "MEDIUM"
       "media-team@company.com" "Digital media store");
    ("netflix",
     V11.mkScenarioDefinition "netflix" MIXED "MEDIUM"
       "content-team@company.com" "Content catalog database");
    ("employees",
     V11.mkScenarioDefinition "employees" LOGIC_HEAVY "CRITICAL"
       "hr-team@company.com" "Enterprise payroll system");
    ("lego",
     V11.mkScenarioDefinition "lego" LOGIC_HEAVY "CRITICAL"
       "analytics-team@company.com" "Product analytics system");
    ("postgres_air",
     V11.mkScenarioDefinition "postgres_air" LOGIC_HEAVY "CRITICAL"
       "operations-team@company.com" "Flight operations database") ].

(** The patterns are handed to [glob] as they are written. *)
Definition app_code_patterns : list (string * string) :=
  [ ("src/config/.*\.py", "configuration");
    ("src/services/.*\.py", "service_layer");
    ("src/business/.*\.py", "business_logic");
    ("src/analytics/.*\.py", "analytics") ].

(** Body of the inner loop of [_validate_application_code_rules]; the read
    is not guarded. *)
Definition scan_file (w : World) (database code_type : string)
    (code_references : Dict) (file_path : string) : Res Dict :=
  if path_exists w file_path then
    match read_text w file_path with
    | Ok content =>
        Ok (if str_in database content
            then dict_append code_type file_path code_references
            else code_references)
    | Raise e => Raise e
    end
  else Ok code_references.

Definition scan_pattern (w : World) (database : string)
    (code_references : Dict) (entry : string * string) : Res Dict :=
  let '(pattern, code_type) := entry in
  fold_res (scan_file w database code_type) (glob w pattern) code_references.

(** The value of [code_references] when the two loops have run. *)
Definition find_code_references (w : World) (database : string) : Res Dict :=
  fold_res (scan_pattern w database) app_code_patterns [].

Definition _validate_application_code_rules (w : World) (database : string)
    (scenario_def : V11.ScenarioDefinition) : M unit :=
  code_references <- lift (find_code_references w database) ;;
  match V11.scenario_type scenario_def with
  | CONFIG_ONLY =>
      if truthy code_references then
        _add_result database (V11.scenario_type scenario_def)
          "code_separation" "FAIL" CRITICAL
          "Config-only database has application code references"
          ["Found in: " ++ repr_list (keys code_references)]
          (sum_lists (values code_references))
      else
        _add_result database (V11.scenario_type scenario_def)
          "code_separation" "PASS" INFO
          "No application code references (correct)"
          ["Config-only scenario properly implemented"] []
  | MIXED =>
      let forbidden_types := ["business_logic"; "analytics"] in
      let violations :=
        map (fun code_type => "Found " ++ code_type ++ " references")
          (filter (fun code_type => mem code_type forbidden_types)
             (keys code_references)) in
      if truthy violations then
        _add_result database (V11.scenario_type scenario_def)
          "code_separation" "FAIL" CRITICAL
          "Mixed scenario has forbidden business logic"
          violations (sum_lists (values code_references))
      else
        _add_result database (V11.scenario_type scenario_def)
          "code_separation" "PASS" INFO
          "Mixed scenario properly implemented"
          ["Found allowed types: " ++ repr_list (keys code_references)] []
  | LOGIC_HEAVY =>
      let required_types := set_iter w ["business_logic"; "analytics"] in
      let missing_types :=
        filter (fun req_type => negb (dict_mem req_type code_references))
          required_types in
      if truthy missing_types then
        _add_result database (V11.scenario_type scenario_def)
          "code_separation" "FAIL" WARNING
          "Logic-heavy scenario missing required code types"
          ["Missing: " ++ repr_list missing_types] []
      else
        _add_result database (V11.scenario_type scenario_def)
          "code_separation" "PASS" INFO
          "Logic-heavy scenario properly implemented"
          ["Found all required types: " ++ repr_list (keys code_references)]
          []
  end.

(** Body of the inner loop of [_validate_config_only_rules]. *)
Definition purity_file (w : World) (database group_name : string)
    (violations : list string) (file_path : string) : Res (list string) :=
  if path_exists w file_path then
    match read_text w file_path with
    | Ok content =>
        Ok (if str_in database content
            then (violations
                  ++ [("Found reference in " ++ group_name ++ ": "
                       ++ file_path)%string])%list
            else violations)
    | Raise e => Raise e
    end
  else Ok violations.

Definition purity_group (w : World) (database : string)
    (violations : list string) (group : list string * string)
    : Res (list string) :=
  let '(file_group, group_name) := group in
  fold_res (purity_file w database group_name) file_group violations.

Definition _validate_config_only_rules (w : World) (database : string)
    (scenario_def : V11.ScenarioDefinition) : M unit :=
  let service_files := glob w "src/services/**/*.py" in
  let business_files := glob w "src/business/**/*.py" in
  let analytics_files := glob w "src/analytics/**/*.py" in
  violations <-
    lift (fold_res (purity_group w database)
            [ (service_files, "service");
              (business_files, "business");
              (analytics_files, "analytics") ] []) ;;
  if truthy violations then
    _add_result database (V11.scenario_type scenario_def)
      "config_only_purity" "FAIL" CRITICAL
      "Config-only database has code references" violations []
  else
    _add_result database (V11.scenario_type scenario_def)
      "config_only_purity" "PASS" INFO
      "Config-only purity maintained" [] [].

Definition _validate_mixed_scenario_rules (w : World) (database : string)
    (scenario_def : V11.ScenarioDefinition) : M unit :=
  let config_files := glob w "src/config/**/*.py" in
  let service_files := glob w "src/services/**/*.py" in
  has_config <- lift (V11.any_reference w database config_files) ;;
  has_service <- lift (V11.any_reference w database service_files) ;;
  if has_config && has_service then
    _add_result database (V11.scenario_type scenario_def)
      "mixed_scenario_structure" "PASS" INFO
      "Mixed scenario properly structured"
      ["Has both config and service layer"] []
  else
    let missing :=
      ((if negb has_config then ["configuration"] else [])
       ++ (if negb has_service then ["service layer"] else []))%list in
    _add_result database (V11.scenario_type scenario_def)
      "mixed_scenario_structure" "WARNING" WARNING
      "Mixed scenario incomplete"
      ["Missing: " ++ repr_list missing] [].

Definition _validate_helm_configuration (w : World) (database : string)
    (scenario_def : V11.ScenarioDefinition) : M unit :=
  let helm_file := "helm-charts/" ++ database ++ "/values.yaml" in
  if path_exists w helm_file then
    _add_result database (V11.scenario_type scenario_def) "helm_config"
      "PASS" INFO "Helm configuration found" [] [helm_file]
  else
    _add_result database (V11.scenario_type scenario_def) "helm_config"
      "WARNING" WARNING "No Helm configuration found" [] [].

(** Body of the loop of [validate_all_scenarios] for one database. *)
Definition validate_one (w : World) (database : string)
    (scenario_def : V11.ScenarioDefinition) : M unit :=
  V11._validate_terraform_configuration w database scenario_def ;;
  _validate_application_code_rules w database scenario_def ;;
  V11._validate_monitoring_configuration w database scenario_def ;;
  _validate_helm_configuration w database scenario_def ;;
  V11._validate_documentation w database scenario_def ;;
  match V11.scenario_type scenario_def with
  | CONFIG_ONLY => _validate_config_only_rules w database scenario_def
  | MIXED => _validate_mixed_scenario_rules w database scenario_def
  | LOGIC_HEAVY => V11._validate_logic_heavy_rules w database scenario_def
  end.

(** Runs every check, prints the report and returns [self.results]. *)
Definition validate_all_scenarios (w : World) : M (list ValidationResult) :=
  for_each scenarios
    (fun '(database, scenario_def) => validate_one w database scenario_def) ;;
  V11._generate_validation_report ;;
  get_results.

(** [main]; [save] stands for writing [results_data] to
    validation_results.json, which is not guarded and may raise. *)
Definition main (w : World) (save : list ResultData -> Res unit) : Res Z :=
  match validate_all_scenarios w [] with
  | Ok (results, _) =>
      match save (results_data results) with
      | Ok _ =>
          let critical_failures :=
            filter (fun r => String.eqb (status r) "FAIL"
                             && ViolationType_eqb (violation_type r) CRITICAL)
              results in
          Ok (if truthy critical_failures then 1%Z else 0%Z)
      | Raise e => Raise e
      end
  | Raise e => Raise e
  end.

End V11_rest.

(** * Vocabulary of the properties *)

Local Open Scope list_scope.

(** [py_file] is readable and its text contains [database]. *)
Definition references (w : World) (database py_file : string) : bool :=
  match read_text w py_file with
  | Ok content => str_in database content
  | Raise _ => false
  end.

(** The artifacts under [dir_path] that reference [database], in the order
    the directory enumeration yields them. *)
Definition matching (w : World) (database dir_path : string) : list string :=
  if path_exists w dir_path
  then filter (references w database) (rglob_py w dir_path)
  else [].

(** A dictionary entry exists only for a non-empty list. *)
Definition entry_of (code_type : string) (l : list string) : Dict :=
  match l with
  | [] => []
  | _ :: _ => [(code_type, l)]
  end.

(** One entry per [(dir_path, code_type)] with a referencing artifact. *)
Definition entries (w : World) (database : string)
    (l : list (string * string)) : Dict :=
  flat_map (fun e => entry_of (snd e) (matching w database (fst e))) l.

(** The status strings a [ValidationResult] is documented to carry. *)
Definition known_status (s : string) : Prop :=
  s = "PASS" \/ s = "FAIL" \/ s = "WARNING".

(** A critical failure: status FAIL together with severity CRITICAL. *)
Definition critical_failure (r : ValidationResult) : Prop :=
  status r = "FAIL" /\ violation_type r = CRITICAL.

(** Lexicographic order on paths, as Python compares [str]. *)
Definition path_le (a b : string) : Prop := String.leb a b = true.

Fixpoint is_sorted (l : list string) : bool :=
  match l with
  | [] => true
  | a :: l' =>
      match l' with
      | [] => true
      | b :: _ => String.leb a b && is_sorted l'
      end
  end.

(** Categories a scenario forbids: CONFIG_ONLY fails on any key of
    [found_references], that is on every category of [app_code_files];
    MIXED has its [forbidden_types]; LOGIC_HEAVY forbids nothing. *)
Definition forbidden (sc : ScenarioType) : list string :=
  match sc with
  | CONFIG_ONLY => map snd V12.app_code_files
  | MIXED => ["business_logic"; "analytics"]
  | LOGIC_HEAVY => []
  end.

(** Categories a scenario requires: only LOGIC_HEAVY has [required_types]. *)
Definition required (sc : ScenarioType) : list string :=
  match sc with
  | LOGIC_HEAVY => ["business_logic"; "analytics"]
  | _ => []
  end.

(** Name of the separation check emitted for a scenario. *)
Definition separation_check_name (sc : ScenarioType) : string :=
  match sc with
  | CONFIG_ONLY => "config_only_purity"
  | MIXED => "mixed_scenario_rules"
  | LOGIC_HEAVY => "logic_heavy_complexity"
  end.

(** Infrastructure evidence: the Terraform files matched by the patterns
    that are readable and mention [database]. *)
Definition infrastructure_evidence (w : World) (database : string)
    : list string :=
  filter (references w database) (flat_map (glob w) V12.terraform_patterns).

(** The same corpus, except that every artifact whose read raises is
    readable with text [content]. *)
Definition with_unreadable_as (content : string) (w : World) : World :=
  mkWorld (path_exists w) (rglob_py w) (glob w)
    (fun p => match read_text w p with
              | Ok c => Ok c
              | Raise _ => Ok content
              end)
    (set_iter w) (set_iter_perm w).

(** Number of results satisfying a test. *)
Fixpoint count_results (f : ValidationResult -> bool)
    (rs : list ValidationResult) : nat :=
  match rs with
  | [] => O
  | r :: rs' => (if f r then 1 else 0) + count_results f rs'
  end.

(** The glob pattern of the monitoring artifact of a database. *)
Definition monitor_pattern (database : string) : string :=
  ("datadog_monitor_" ++ database ++ ".yaml")%string.

(** The monitoring artifact is readable and mentions, case-insensitively,
    the scenario and the three fixed elements. *)
Definition monitor_complete (w : World) (sc : ScenarioType)
    (monitor_file : string) : bool :=
  match read_text w monitor_file with
  | Ok content =>
      forallb (fun elem => str_in (lower elem) (lower content))
        [ScenarioType_value sc; "threshold"; "alert"; "database_name"]
  | Raise _ => false
  end.

(** Infrastructure evidence of the earlier version: the fixed Terraform
    files that exist and mention [database]. *)
Definition infrastructure_evidence_11 (w : World) (database : string)
    : list string :=
  filter (fun f => path_exists w f && references w database f)
    V11.terraform_files.

(** What a method appends when started on a fresh result list. *)
Definition appended {A} (m : M A) : list ValidationResult :=
  match m [] with
  | Ok (_, rs) => rs
  | Raise _ => []
  end.

(** A method that keeps the recorded results as they are, and whose outcome
    and appended results do not depend on them. *)
Definition append_only {A} (m : M A) : Prop :=
  forall rs,
    m rs = match m [] with
           | Ok (a, d) => Ok (a, rs ++ d)
           | Raise e => Raise e
           end.

(** The table of [V12.scenarios] with the scenario strings converted. *)
Definition registry : list (string * ScenarioType) :=
  flat_map (fun e =>
              match ScenarioType_of_value (fst (fst (snd e))) with
              | Ok sc => [(fst e, sc)]
              | Raise _ => []
              end)
    V12.scenarios.

(** The results of a run of the later version on a fresh validator. *)
Definition run_results (w : World) : list ValidationResult :=
  flat_map (fun e => appended (V12.validate_one w (fst e) (snd e))) registry.

(** The three pairings of status and severity the later version emits. *)
Definition coherent (r : ValidationResult) : Prop :=
  (status r = "PASS" /\ violation_type r = INFO)
  \/ (status r = "FAIL" /\ violation_type r = CRITICAL)
  \/ (status r = "WARNING" /\ violation_type r = WARNING).

(** What makes a database fail a run of the later version: evidence in a
    forbidden category, no infrastructure evidence, or no monitoring
    artifact. *)
Definition blocking (w : World) (db : string) (sc : ScenarioType) : bool :=
  existsb (fun C => truthy (dict_index (V12.find_references w db) C))
    (forbidden sc)
  || negb (truthy (infrastructure_evidence w db))
  || negb (truthy (glob w (monitor_pattern db))).

(** Every path that exists can be read. *)
Definition readable (w : World) : Prop :=
  forall p, path_exists w p = true -> exists content, read_text w p = Ok content.

(** [f] exists, is readable and mentions [database]. *)
Definition cites (w : World) (database f : string) : bool :=
  path_exists w f && references w database f.

(** Name of the scenario-specific check of the earlier version. *)
Definition scenario_check_name_11 (sc : ScenarioType) : string :=
  match sc with
  | CONFIG_ONLY => "config_only_purity"
  | MIXED => "mixed_scenario_structure"
  | LOGIC_HEAVY => "logic_heavy_complexity"
  end.

(** The files matched by a glob pattern that exist, are readable and
    mention [database]. *)
Definition citing (w : World) (database pattern : string) : list string :=
  filter (cites w database) (glob w pattern).

(** The same files with the same content, possibly enumerated in another
    order. *)
Definition same_files (w w' : World) : Prop :=
  (forall p, path_exists w p = path_exists w' p)
  /\ (forall p, read_text w p = read_text w' p)
  /\ (forall l, set_iter w l = set_iter w' l)
  /\ (forall d, Permutation (rglob_py w d) (rglob_py w' d))
  /\ (forall p, Permutation (glob w p) (glob w' p)).

(** Two dictionaries with the same keys in the same order, whose lists
    hold the same paths up to order. *)
Definition same_entries (d d' : Dict) : Prop :=
  Forall2 (fun e e' => fst e = fst e' /\ Permutation (snd e) (snd e')) d d'.

(** ** Sample corpora and result lists *)

(** Nothing exists. *)
Definition corpus_empty : World :=
  world_of (fun _ => false) (fun _ => []) (fun _ => [])
    (fun _ => Raise "No such file or directory").

(** A configuration file that mentions no database, two service files
    enumerated in non-alphabetical order and one business file, the last
    three mentioning pagila; no infrastructure or monitoring files. *)
Definition corpus_sample : World :=
  world_of (fun _ => true)
    (fun d =>
       if String.eqb d "src/config/" then ["src/config/settings.py"]
       else if String.eqb d "src/services/"
       then ["src/services/z_service.py"; "src/services/a_service.py"]
       else if String.eqb d "src/business/" then ["src/business/rental.py"]
       else [])
    (fun _ => [])
    (fun p =>
       if String.eqb p "src/config/settings.py" then Ok "DEBUG = True"
       else if String.eqb p "src/services/z_service.py"
       then Ok "conn = connect('pagila')"
       else if String.eqb p "src/services/a_service.py"
       then Ok "DATABASE = 'pagila'"
       else if String.eqb p "src/business/rental.py"
       then Ok "SELECT * FROM pagila.rental"
       else Raise "No such file or directory").

(** A corpus on which every check of every database passes, with the
    files [config_files] under [src/config/]; [src/config/broken.py] cannot
    be decoded. *)
Definition corpus_compliant (config_files : list string) : World :=
  world_of (fun _ => true)
    (fun d =>
       if String.eqb d "src/config/" then config_files
       else if String.eqb d "src/services/" then ["src/services/media.py"]
       else if String.eqb d "src/business/" then ["src/business/payroll.py"]
       else if String.eqb d "src/analytics/" then ["src/analytics/bi.py"]
       else [])
    (fun pattern =>
       if String.eqb pattern "terraform_*_databases.tf"
       then ["terraform_dev_databases.tf"]
       else if String.prefix "terraform_" pattern then []
       else [pattern])
    (fun p =>
       if String.eqb p "src/config/broken.py"
       then Raise "'utf-8' codec can't decode byte 0xff in position 0"
       else if String.eqb p "src/services/media.py"
       then Ok "pagila chinook netflix"
       else if String.prefix "src/" p
       then Ok "employees lego postgres_air"
       else if String.prefix "terraform_" p
       then Ok "periodic_table world_happiness titanic pagila chinook netflix employees lego postgres_air"
       else Ok "scenario: config_only mixed logic_heavy; alert threshold: 1; tags: database_name").

(** Everything exists and reads as the same ownership note. *)
Definition corpus_readable : World :=
  world_of (fun _ => true) (fun _ => [])
    (fun pattern => [pattern])
    (fun _ => Ok "pagila: owner development-team@company.com").

(** Everything exists, but the Terraform files cannot be opened. *)
Definition corpus_locked_terraform : World :=
  world_of (fun _ => true) (fun _ => [])
    (fun pattern => [pattern])
    (fun p =>
       if String.prefix "terraform/" p
       then Raise "[Errno 13] Permission denied"
       else Ok "pagila: owner development-team@company.com").

(** [corpus_sample] with the service files enumerated the other way round. *)
Definition corpus_sample_reordered : World :=
  world_of (path_exists corpus_sample)
    (fun d =>
       if String.eqb d "src/services/"
       then ["src/services/a_service.py"; "src/services/z_service.py"]
       else rglob_py corpus_sample d)
    (glob corpus_sample) (read_text corpus_sample).

(** One business file mentions employees; there is no analytics file. *)
Definition corpus_business_only : World :=
  world_of (fun _ => true)
    (fun d =>
       if String.eqb d "src/business/" then ["src/business/payroll.py"]
       else [])
    (fun pattern =>
       if String.eqb pattern "src/business/**/*.py"
       then ["src/business/payroll.py"]
       else [])
    (fun p =>
       if String.eqb p "src/business/payroll.py"
       then Ok "SELECT salary FROM employees.salaries"
       else Raise "No such file or directory").

Definition result_pass : ValidationResult :=
  mkResult "titanic" CONFIG_ONLY "helm_config" "PASS" INFO
    "Helm configuration found" [] [].

Definition result_critical : ValidationResult :=
  mkResult "pagila" MIXED "terraform_config" "FAIL" CRITICAL
    "No Terraform configuration found" [] [].

Definition result_warning : ValidationResult :=
  mkResult "pagila" MIXED "helm_config" "WARNING" WARNING
    "No Helm configuration found" [] [].

(** * Lemmas on the Python values *)

Unset Implicit Arguments.

Lemma truthy_false_iff {A} (l : list A) : truthy l = false <-> l = [].
Proof. destruct l; simpl; split; congruence. Qed.

Lemma mem_In (x : string) (l : list string) : mem x l = true <-> In x l.
Proof.
  unfold mem. rewrite existsb_exists. split.
  - intros (y & Hy & E). apply String.eqb_eq in E. now subst.
  - intros H. exists x. split; [assumption | apply String.eqb_refl].
Qed.

Lemma dict_get_None (k : string) (d : Dict) :
  dict_get k d = None <-> ~ In k (keys d).
Proof.
  induction d as [| [k' v] d IH]; simpl.
  - tauto.
  - destruct (String.eqb_spec k k') as [-> | N].
    + split; [discriminate | intros H; exfalso; apply H; now left].
    + rewrite IH. split; intros H; [intros [E | I]; [congruence | tauto] | tauto].
Qed.

Lemma dict_mem_In (k : string) (d : Dict) :
  dict_mem k d = true <-> In k (keys d).
Proof.
  unfold dict_mem. destruct (dict_get k d) eqn:E.
  - split; [intros _ | reflexivity].
    destruct (in_dec string_dec k (keys d)) as [I | N]; [assumption |].
    apply dict_get_None in N. congruence.
  - apply dict_get_None in E. split; [discriminate | tauto].
Qed.

Lemma dict_get_In (k : string) (v : list string) (d : Dict) :
  dict_get k d = Some v -> In (k, v) d.
Proof.
  induction d as [| [k' v'] d IH]; simpl; [discriminate |].
  destruct (String.eqb_spec k k') as [-> | _].
  - intros [= ->]. now left.
  - intros H. right. now apply IH.
Qed.

Lemma dict_append_fresh (k x : string) (d : Dict) :
  ~ In k (keys d) -> dict_append k x d = (d ++ [(k, [x])])%list.
Proof.
  induction d as [| [k' v] d IH]; simpl; intros N; [reflexivity |].
  destruct (String.eqb_spec k k') as [-> | _]; [tauto |].
  rewrite IH by tauto. reflexivity.
Qed.

Lemma dict_append_last (k x : string) (v : list string) (d : Dict) :
  ~ In k (keys d) ->
  dict_append k x (d ++ [(k, v)]) = (d ++ [(k, v ++ [x])])%list.
Proof.
  induction d as [| [k' v'] d IH]; simpl; intros N.
  - now rewrite String.eqb_refl.
  - destruct (String.eqb_spec k k') as [-> | _]; [tauto |].
    rewrite IH by tauto. reflexivity.
Qed.

(** * The evidence scan in closed form *)

Section Scan.
Variable w : World.
Variable database : string.

Lemma scan_file_references code_type found py_file :
  V12.scan_file w database code_type found py_file =
  if references w database py_file
  then dict_append code_type py_file found
  else found.
Proof.
  unfold V12.scan_file, references.
  destruct (read_text w py_file); [destruct (str_in _ _) |]; reflexivity.
Qed.

Lemma scan_files_last code_type files : forall found v,
  ~ In code_type (keys found) ->
  fold_left (V12.scan_file w database code_type) files
    (found ++ [(code_type, v)])%list =
  (found ++ [(code_type, v ++ filter (references w database) files)])%list.
Proof.
  induction files as [| f files IH]; simpl; intros found v N.
  - now rewrite app_nil_r.
  - rewrite scan_file_references.
    destruct (references w database f).
    + rewrite dict_append_last by assumption.
      rewrite IH by assumption. now rewrite <- app_assoc.
    + now apply IH.
Qed.

Lemma scan_files_fresh code_type files : forall found,
  ~ In code_type (keys found) ->
  fold_left (V12.scan_file w database code_type) files found =
  (found ++ entry_of code_type (filter (references w database) files))%list.
Proof.
  induction files as [| f files IH]; simpl; intros found N.
  - now rewrite app_nil_r.
  - rewrite scan_file_references.
    destruct (references w database f).
    + rewrite dict_append_fresh by assumption.
      now rewrite scan_files_last by assumption.
    + now apply IH.
Qed.

Lemma keys_entry_of code_type l k :
  In k (keys (entry_of code_type l)) -> k = code_type.
Proof. destruct l; simpl; [tauto | intros [E | []]; now subst]. Qed.

Lemma keys_entries l k : In k (keys (entries w database l)) -> In k (map snd l).
Proof.
  induction l as [| [d c] l IH]; simpl; [tauto |].
  unfold keys in *. rewrite map_app, in_app_iff. intros [H | H].
  - left. symmetry. now apply keys_entry_of in H.
  - right. now apply IH.
Qed.

Lemma scan_dirs l : forall found,
  NoDup (map snd l) ->
  (forall k, In k (keys found) -> ~ In k (map snd l)) ->
  fold_left (V12.scan_dir w database) l found =
  found ++ entries w database l.
Proof.
  induction l as [| [dir_path code_type] l IH]; simpl; intros found ND D.
  - now rewrite app_nil_r.
  - inversion ND as [| ? ? Nin ND']; subst.
    assert (F : ~ In code_type (keys found)).
    { intros I. apply (D _ I). now left. }
    assert (E : (if path_exists w dir_path
                 then fold_left (V12.scan_file w database code_type)
                        (rglob_py w dir_path) found
                 else found)
                = (found ++ entry_of code_type
                              (matching w database dir_path))%list).
    { unfold matching. destruct (path_exists w dir_path).
      - now apply scan_files_fresh.
      - simpl. now rewrite app_nil_r. }
    rewrite E, IH; [now rewrite <- app_assoc | assumption |].
    intros k I. unfold keys in I. rewrite map_app, in_app_iff in I.
    destruct I as [I | I].
    + intros I'. apply (D _ I). now right.
    + apply keys_entry_of in I. now subst.
Qed.

(** [found_references] holds, in the order of [app_code_files], one entry
    per category with at least one referencing artifact. *)
Lemma find_references_entries :
  V12.find_references w database = entries w database V12.app_code_files.
Proof.
  unfold V12.find_references.
  rewrite scan_dirs; [reflexivity | | intros k []].
  simpl. repeat constructor; simpl; intuition discriminate.
Qed.

End Scan.

Lemma find_references_get (w : World) (database dir_path code_type : string) :
  In (dir_path, code_type) V12.app_code_files ->
  dict_get code_type (V12.find_references w database) =
  match matching w database dir_path with
  | [] => None
  | l => Some l
  end.
Proof.
  intros H. rewrite find_references_entries.
  unfold entries, V12.app_code_files. simpl.
  destruct H as [E | [E | [E | [E | []]]]]; inversion E; subst; clear E;
    destruct (matching w database "src/config/");
    destruct (matching w database "src/services/");
    destruct (matching w database "src/business/");
    destruct (matching w database "src/analytics/");
    reflexivity.
Qed.

Lemma find_references_index (w : World) (database dir_path code_type : string) :
  In (dir_path, code_type) V12.app_code_files ->
  dict_index (V12.find_references w database) code_type =
  matching w database dir_path.
Proof.
  intros H. unfold dict_index. rewrite (find_references_get w database _ _ H).
  now destruct (matching w database dir_path).
Qed.

Lemma find_references_keys (w : World) (database k : string) :
  In k (keys (V12.find_references w database)) ->
  In k (map snd V12.app_code_files).
Proof. rewrite find_references_entries. apply keys_entries. Qed.

(** An entry of [found_references] never holds an empty list. *)
Lemma find_references_nonempty (w : World) (database k : string) :
  dict_mem k (V12.find_references w database) = true <->
  dict_index (V12.find_references w database) k <> [].
Proof.
  unfold dict_mem, dict_index.
  destruct (dict_get k (V12.find_references w database)) as [v |] eqn:E.
  - split; [intros _ | reflexivity].
    assert (I : In k (map snd V12.app_code_files)).
    { apply (find_references_keys w database), dict_mem_In.
      unfold dict_mem. now rewrite E. }
    apply in_map_iff in I. destruct I as ([d c] & <- & I). simpl in E.
    rewrite (find_references_get w database _ _ I) in E.
    destruct (matching w database d); [discriminate |].
    injection E as <-. discriminate.
  - split; [discriminate | congruence].
Qed.

(** ** Order on paths *)

Lemma leb_trans (a b c : string) :
  String.leb a b = true -> String.leb b c = true -> String.leb a c = true.
Proof.
  unfold String.leb. revert b c.
  induction a as [| x a IH]; intros [| y b] [| z c]; simpl; try easy.
  unfold Ascii.compare.
  destruct (N.compare_spec (N_of_ascii x) (N_of_ascii y)) as [E1 | L1 | G1];
    destruct (N.compare_spec (N_of_ascii y) (N_of_ascii z)) as [E2 | L2 | G2];
    destruct (N.compare_spec (N_of_ascii x) (N_of_ascii z)) as [E3 | L3 | G3];
    try easy; try lia.
  apply IH.
Qed.

Lemma is_sorted_cons (a : string) (l : list string) :
  is_sorted (a :: l) = true <->
  is_sorted l = true /\ Forall (path_le a) l.
Proof.
  revert a. induction l as [| b l IH]; intros a.
  - simpl. split; [intros _; split; [reflexivity | constructor] | reflexivity].
  - change (is_sorted (a :: b :: l)) with (String.leb a b && is_sorted (b :: l)).
    rewrite andb_true_iff. split.
    + intros [Hab Hs]. split; [assumption |].
      constructor; [exact Hab |].
      apply IH in Hs. destruct Hs as [_ F].
      eapply Forall_impl; [| exact F].
      intros c Hbc. unfold path_le in *. eapply leb_trans; eassumption.
    + intros [Hs F]. inversion F; subst. split; assumption.
Qed.

Lemma is_sorted_filter (f : string -> bool) (l : list string) :
  is_sorted l = true -> is_sorted (filter f l) = true.
Proof.
  induction l as [| a l IH]; [reflexivity |].
  intros H. apply is_sorted_cons in H. destruct H as [Hs F].
  simpl. destruct (f a); [| now apply IH].
  apply is_sorted_cons. split; [now apply IH |].
  apply Forall_forall. intros x Hx. apply filter_In in Hx.
  rewrite Forall_forall in F. apply F. tauto.
Qed.

Lemma is_sorted_Sorted (l : list string) :
  is_sorted l = true <-> Sorted path_le l.
Proof.
  induction l as [| a l IH]; [simpl; split; [constructor | reflexivity] |].
  destruct l as [| b l].
  - simpl. split; [repeat constructor | reflexivity].
  - change (is_sorted (a :: b :: l)) with (String.leb a b && is_sorted (b :: l)).
    rewrite andb_true_iff, IH. split.
    + intros [Hab Hs]. constructor; [assumption | now constructor].
    + intros H. inversion H as [| ? ? Hs Hd]; subst.
      inversion Hd; subst. split; assumption.
Qed.

(** * Shape of what each check appends *)

Lemma add_result_run db sc cn st vt msg det refs rs :
  _add_result db sc cn st vt msg det refs rs =
  Ok (tt, rs ++ [mkResult db sc cn st vt msg det refs]).
Proof. reflexivity. Qed.

Lemma known_PASS : known_status "PASS".
Proof. now left. Qed.

Lemma known_FAIL : known_status "FAIL".
Proof. right. now left. Qed.

Lemma known_WARNING : known_status "WARNING".
Proof. right. now right. Qed.

Create HintDb checks.
#[local] Hint Resolve known_PASS known_FAIL known_WARNING : checks.

Ltac one_result :=
  eexists; rewrite add_result_run;
  repeat split; simpl; auto with checks.

Lemma separation_run (w : World) (db : string) (sc : ScenarioType) rs :
  exists r,
    V12._validate_scenario_separation w db sc rs = Ok (tt, rs ++ [r])
    /\ database r = db /\ scenario r = sc
    /\ check_name r = separation_check_name sc
    /\ known_status (status r).
Proof.
  unfold V12._validate_scenario_separation.
  destruct sc; cbv zeta;
    repeat match goal with
           | |- context [if ?b then _ else _] => destruct b
           end; one_result.
Qed.

Lemma infrastructure_run (w : World) (db : string) (sc : ScenarioType) rs :
  exists r_tf r_helm,
    V12._validate_infrastructure_files w db sc rs
      = Ok (tt, rs ++ [r_tf; r_helm])
    /\ (database r_tf = db /\ scenario r_tf = sc
        /\ check_name r_tf = "terraform_config"
        /\ known_status (status r_tf))
    /\ (database r_helm = db /\ scenario r_helm = sc
        /\ check_name r_helm = "helm_config"
        /\ known_status (status r_helm)).
Proof.
  unfold V12._validate_infrastructure_files, bind. cbv zeta.
  destruct (V12.terraform_scan w db V12.terraform_patterns);
    rewrite add_result_run;
    destruct (truthy (glob w _));
    rewrite add_result_run, <- app_assoc; simpl;
    do 2 eexists; repeat split; simpl; auto with checks.
Qed.

Lemma monitoring_run (w : World) (db : string) (sc : ScenarioType) rs :
  exists r,
    V12._validate_monitoring_setup w db sc rs = Ok (tt, rs ++ [r])
    /\ database r = db /\ scenario r = sc
    /\ check_name r = "monitoring_config"
    /\ known_status (status r).
Proof.
  unfold V12._validate_monitoring_setup. cbv zeta.
  destruct (glob w _) as [| monitor_file ?]; [one_result |].
  destruct (read_text w monitor_file) as [content | e]; [| one_result].
  destruct (truthy _); one_result.
Qed.

Lemma validate_one_run (w : World) (db : string) (sc : ScenarioType) rs :
  exists r1 r2 r3 r4,
    V12.validate_one w db sc rs = Ok (tt, rs ++ [r1; r2; r3; r4])
    /\ map check_name [r1; r2; r3; r4]
       = [separation_check_name sc; "terraform_config"; "helm_config";
          "monitoring_config"]
    /\ Forall (fun r => database r = db /\ scenario r = sc
                        /\ known_status (status r)) [r1; r2; r3; r4].
Proof.
  destruct (separation_run w db sc rs) as (r1 & E1 & D1 & S1 & N1 & K1).
  destruct (infrastructure_run w db sc (rs ++ [r1]))
    as (r2 & r3 & E2 & (D2 & S2 & N2 & K2) & (D3 & S3 & N3 & K3)).
  destruct (monitoring_run w db sc ((rs ++ [r1]) ++ [r2; r3]))
    as (r4 & E4 & D4 & S4 & N4 & K4).
  exists r1, r2, r3, r4. split; [| split].
  - unfold V12.validate_one, bind. rewrite E1, E2, E4.
    now rewrite <- !app_assoc.
  - simpl. now rewrite N1, N2, N3, N4.
  - repeat (apply Forall_cons; [repeat split; assumption |]).
    apply Forall_nil.
Qed.

(** * The report *)

Lemma is_critical_failure_iff (r : ValidationResult) :
  V12.is_critical_failure r = true <-> critical_failure r.
Proof.
  unfold V12.is_critical_failure, critical_failure.
  rewrite andb_true_iff, String.eqb_eq.
  destruct (violation_type r); simpl; intuition congruence.
Qed.

Lemma no_critical_failures (rs : list ValidationResult) :
  truthy (V12.critical_failures rs) = false <->
  forall r, In r rs -> ~ critical_failure r.
Proof.
  rewrite truthy_false_iff. unfold V12.critical_failures. split.
  - intros E r I C. apply is_critical_failure_iff in C.
    assert (I' : In r (filter V12.is_critical_failure rs))
      by (apply filter_In; tauto).
    rewrite E in I'. exact I'.
  - intros H. destruct (filter V12.is_critical_failure rs) as [| r l] eqn:E;
      [reflexivity |].
    assert (I : In r (filter V12.is_critical_failure rs))
      by (rewrite E; now left).
    apply filter_In in I. destruct I as [I C].
    apply is_critical_failure_iff in C. now destruct (H r I).
Qed.

Lemma count_statuses_known (rs : list ValidationResult) :
  Forall (fun r => known_status (status r)) rs ->
  forall c,
    V12.count_statuses rs c =
    Ok (V12.mkCounts
          (V12.n_pass c
           + count_results (fun r => String.eqb (status r) "PASS") rs)
          (V12.n_fail c
           + count_results (fun r => String.eqb (status r) "FAIL") rs)
          (V12.n_warning c
           + count_results (fun r => String.eqb (status r) "WARNING") rs)).
Proof.
  induction 1 as [| r rs K _ IH]; intros [p f x]; simpl.
  - now rewrite !Nat.add_0_r.
  - destruct K as [E | [E | E]]; rewrite E; simpl; rewrite IH; simpl;
      repeat f_equal; lia.
Qed.

Lemma generate_report_run (rs : list ValidationResult) :
  Forall (fun r => known_status (status r)) rs ->
  V12._generate_report rs
  = Ok (negb (truthy (V12.critical_failures rs)), rs).
Proof.
  intros K. unfold V12._generate_report, bind, get_results, lift.
  rewrite (count_statuses_known rs K). cbv zeta.
  now destruct (truthy (V12.critical_failures rs)).
Qed.

(** A status outside the three keys of [status_counts] makes the report
    raise [KeyError]. *)
Lemma generate_report_unknown_status (r : ValidationResult) :
  ~ known_status (status r) ->
  V12._generate_report [r] = Raise (repr_str (status r)).
Proof.
  intros N. unfold V12._generate_report, bind, get_results, lift. simpl.
  unfold V12.bump, known_status in *.
  destruct (String.eqb_spec (status r) "PASS"); [tauto |].
  destruct (String.eqb_spec (status r) "FAIL"); [tauto |].
  destruct (String.eqb_spec (status r) "WARNING"); [tauto |].
  reflexivity.
Qed.

(** * The whole run *)

Lemma loop_run (w : World)
    (table : list (string * (string * string * string))) :
  Forall (fun e => exists sc,
            ScenarioType_of_value (fst (fst (snd e))) = Ok sc) table ->
  forall rs, exists rs',
    for_each table
      (fun '(database, (scenario_str, criticality, owner)) =>
         scenario_type <- lift (ScenarioType_of_value scenario_str) ;;
         V12.validate_one w database scenario_type) rs
    = Ok (tt, rs ++ rs')
    /\ length rs' = 4 * length table
    /\ Forall (fun r => known_status (status r)) rs'.
Proof.
  induction 1 as [| [db [[s c] o]] table (sc & E) _ IH]; intros rs.
  - exists []. simpl. now rewrite app_nil_r.
  - simpl in E.
    destruct (validate_one_run w db sc rs) as (r1 & r2 & r3 & r4 & R & _ & K).
    destruct (IH (rs ++ [r1; r2; r3; r4])) as (rs' & R' & L & K').
    exists ([r1; r2; r3; r4] ++ rs'). split; [| split].
    + change (for_each ((db, (s, c, o)) :: table) ?f)
        with (bind (f (db, (s, c, o))) (fun _ => for_each table f)).
      unfold bind at 1. cbv beta iota. unfold bind at 1, lift.
      rewrite E, R. change (?a :: ?b :: ?c :: ?d :: rs')
        with ([a; b; c; d] ++ rs'). rewrite app_assoc. exact R'.
    + rewrite length_app, L. simpl. lia.
    + apply Forall_app. split; [| assumption].
      eapply Forall_impl; [| exact K]. simpl. tauto.
Qed.

Lemma scenarios_valid :
  Forall (fun e => exists sc,
            ScenarioType_of_value (fst (fst (snd e))) = Ok sc) V12.scenarios.
Proof. unfold V12.scenarios. repeat constructor; eexists; reflexivity. Qed.

(** A run never raises: it appends four results per database of the table
    and the exit code reflects the absence of critical failures. *)
Lemma main_run (w : World) :
  exists rs success,
    V12.validate_all_scenarios w [] = Ok (success, rs)
    /\ V12.main w = Ok (V12.exit_code success)
    /\ length rs = 36
    /\ Forall (fun r => known_status (status r)) rs
    /\ (success = true <-> forall r, In r rs -> ~ critical_failure r).
Proof.
  destruct (loop_run w V12.scenarios scenarios_valid []) as (rs & R & L & K).
  exists rs, (negb (truthy (V12.critical_failures rs))).
  assert (E : V12.validate_all_scenarios w []
              = Ok (negb (truthy (V12.critical_failures rs)), rs)).
  { unfold V12.validate_all_scenarios, bind at 1. rewrite R. simpl.
    now apply generate_report_run. }
  repeat split; try assumption.
  - unfold V12.main. now rewrite E.
  - intros H. apply no_critical_failures. now apply negb_true_iff.
  - intros H. apply negb_true_iff. now apply no_critical_failures.
Qed.

(** * Properties of the specification *)

(** C1. For every sequence of results (with documented statuses), the empty
    one included, the report returns normally, leaves the sequence as it
    was, and its success flag is true exactly when no result is a FAIL of
    CRITICAL severity; the exit code is 0 exactly when the flag is true
    and 1, hence non-zero, otherwise.  On every corpus [main] returns the
    exit code of the flag reported for the results of the run. *)
Theorem C1_overall_success (rs : list ValidationResult) :
  Forall (fun r => known_status (status r)) rs ->
  (exists success,
     V12._generate_report rs = Ok (success, rs)
     /\ (success = true <-> forall r, In r rs -> ~ critical_failure r)
     /\ (V12.exit_code success = 0%Z <-> success = true)
     /\ (success = false -> V12.exit_code success = 1%Z))
  /\ V12._generate_report [] = Ok (true, [])
  /\ (forall w, exists results success,
        V12.validate_all_scenarios w [] = Ok (success, results)
        /\ V12.main w = Ok (V12.exit_code success)
        /\ (success = true <->
            forall r, In r results -> ~ critical_failure r)).
Proof.
  intros K. split; [| split; [reflexivity |]].
  - exists (negb (truthy (V12.critical_failures rs))).
    split; [now apply generate_report_run |]. split; [| split].
    + rewrite negb_true_iff. apply no_critical_failures.
    + destruct (truthy _); simpl; split; congruence.
    + intros ->. reflexivity.
  - intros w. destruct (main_run w) as (results & success & R & E & _ & _ & C).
    now exists results, success.
Qed.

Lemma C1_overall_success_witness :
  Forall (fun r => known_status (status r))
    [result_pass; result_critical; result_warning]
  /\ (exists success,
        V12._generate_report [result_pass; result_critical; result_warning]
        = Ok (success, [result_pass; result_critical; result_warning])
        /\ (success = true <->
            forall r, In r [result_pass; result_critical; result_warning] ->
                      ~ critical_failure r)
        /\ (V12.exit_code success = 0%Z <-> success = true)
        /\ (success = false -> V12.exit_code success = 1%Z))
  /\ V12._generate_report [] = Ok (true, [])
  /\ (forall w, exists results success,
        V12.validate_all_scenarios w [] = Ok (success, results)
        /\ V12.main w = Ok (V12.exit_code success)
        /\ (success = true <->
            forall r, In r results -> ~ critical_failure r)).
Proof.
  assert (K : Forall (fun r => known_status (status r))
                [result_pass; result_critical; result_warning]).
  { repeat apply Forall_cons; try apply Forall_nil; simpl; auto with checks. }
  split; [exact K |].
  exact (C1_overall_success [result_pass; result_critical; result_warning] K).
Defined.

Lemma dict_index_In (d : Dict) (k p : string) :
  In p (dict_index d k) -> exists v, dict_get k d = Some v /\ In p v.
Proof.
  unfold dict_index. destruct (dict_get k d) as [v |]; [| intros []].
  intros I. now exists v.
Qed.

Lemma truthy_In {A} (x : A) (l : list A) : In x l -> truthy l = true.
Proof. destruct l; [intros [] | reflexivity]. Qed.

(** C2. When the scenario of a resource forbids category [C] and the
    evidence of the resource holds an artifact [p] under [C], the separation
    check appends one result, of status FAIL and severity CRITICAL, whose
    file references include [p]. *)
Theorem C2_forbidden_category_fails (w : World) (db : string)
    (sc : ScenarioType) (C p : string) (rs : list ValidationResult) :
  In C (forbidden sc) ->
  In p (dict_index (V12.find_references w db) C) ->
  exists r,
    V12._validate_scenario_separation w db sc rs = Ok (tt, rs ++ [r])
    /\ database r = db /\ scenario r = sc
    /\ check_name r = separation_check_name sc
    /\ status r = "FAIL" /\ violation_type r = CRITICAL
    /\ In p (file_references r).
Proof.
  intros F I. unfold V12._validate_scenario_separation. cbv zeta.
  destruct (dict_index_In _ _ _ I) as (v & G & Iv).
  assert (K : In C (keys (V12.find_references w db))).
  { apply dict_mem_In. unfold dict_mem. now rewrite G. }
  destruct sc; simpl in F.
  - assert (T : truthy (V12.find_references w db) = true).
    { destruct (V12.find_references w db); [destruct K | reflexivity]. }
    rewrite T. eexists. rewrite add_result_run.
    repeat split; simpl. unfold sum_lists, values.
    apply in_concat. exists v. split; [| assumption].
    apply dict_get_In in G. change v with (snd (C, v)). now apply in_map.
  - assert (V : In C (filter (fun t => mem t ["business_logic"; "analytics"])
                        (keys (V12.find_references w db)))).
    { apply filter_In. split; [assumption |]. now apply mem_In. }
    rewrite (truthy_In _ _ V). eexists. rewrite add_result_run.
    repeat split; simpl. unfold sum_lists.
    apply in_concat. exists (dict_index (V12.find_references w db) C).
    split; [now apply in_map | assumption].
  - destruct F.
Qed.

Lemma C2_forbidden_category_fails_witness :
  In "business_logic" (forbidden MIXED)
  /\ In "src/business/rental.py"
       (dict_index (V12.find_references corpus_sample "pagila")
          "business_logic")
  /\ exists r,
       V12._validate_scenario_separation corpus_sample "pagila" MIXED []
       = Ok (tt, [] ++ [r])
       /\ database r = "pagila" /\ scenario r = MIXED
       /\ check_name r = separation_check_name MIXED
       /\ status r = "FAIL" /\ violation_type r = CRITICAL
       /\ In "src/business/rental.py" (file_references r).
Proof.
  assert (F : In "business_logic" (forbidden MIXED)) by (simpl; auto).
  assert (I : In "src/business/rental.py"
                (dict_index (V12.find_references corpus_sample "pagila")
                   "business_logic")) by (vm_compute; auto).
  split; [exact F |]. split; [exact I |].
  exact (C2_forbidden_category_fails corpus_sample "pagila" MIXED
           "business_logic" "src/business/rental.py" [] F I).
Defined.

(** An artifact found by the scan is evidence of its category. *)
Lemma evidence_of_artifact (w : World) (db dir C p content : string) :
  In (dir, C) V12.app_code_files ->
  path_exists w dir = true ->
  In p (rglob_py w dir) ->
  read_text w p = Ok content ->
  str_in db content = true ->
  In p (dict_index (V12.find_references w db) C).
Proof.
  intros H E I R S. rewrite (find_references_index w db dir C H).
  unfold matching. rewrite E. apply filter_In. split; [assumption |].
  unfold references. now rewrite R.
Qed.

(** C4 (as amended). A configured category has an entry in the evidence
    mapping exactly when at least one artifact of it references the
    resource; the entry is then the non-empty list of those artifacts, and a
    category without a referencing artifact is absent from the mapping.
    Nothing but configured categories is ever a key. *)
Theorem C4_entry_iff_evidence (w : World) (db dir C : string) :
  In (dir, C) V12.app_code_files ->
  (dict_mem C (V12.find_references w db) = true <-> matching w db dir <> [])
  /\ (matching w db dir = [] ->
      dict_get C (V12.find_references w db) = None)
  /\ (forall l, dict_get C (V12.find_references w db) = Some l ->
                l = matching w db dir /\ l <> [])
  /\ (forall k, In k (keys (V12.find_references w db)) ->
                In k (map snd V12.app_code_files)).
Proof.
  intros H. pose proof (find_references_get w db dir C H) as G.
  split; [| split; [| split]].
  - unfold dict_mem. rewrite G.
    destruct (matching w db dir); split; congruence.
  - intros E. now rewrite G, E.
  - intros l E. rewrite G in E.
    destruct (matching w db dir); split; congruence.
  - apply find_references_keys.
Qed.

Lemma C4_entry_iff_evidence_witness :
  In ("src/config/", "configuration") V12.app_code_files
  /\ (dict_mem "configuration" (V12.find_references corpus_sample "pagila")
      = true <-> matching corpus_sample "pagila" "src/config/" <> [])
  /\ (matching corpus_sample "pagila" "src/config/" = [] ->
      dict_get "configuration" (V12.find_references corpus_sample "pagila")
      = None)
  /\ (forall l,
        dict_get "configuration" (V12.find_references corpus_sample "pagila")
        = Some l ->
        l = matching corpus_sample "pagila" "src/config/" /\ l <> [])
  /\ (forall k, In k (keys (V12.find_references corpus_sample "pagila")) ->
                In k (map snd V12.app_code_files)).
Proof.
  assert (H : In ("src/config/", "configuration") V12.app_code_files)
    by (simpl; auto).
  split; [exact H |].
  exact (C4_entry_iff_evidence corpus_sample "pagila" "src/config/"
           "configuration" H).
Defined.

(** C4, as stated, fails: the configuration directory exists and is
    scanned, none of its artifacts mentions pagila, and the mapping has no
    "configuration" key at all (instead of an empty list). *)
Lemma C4_counterexample :
  In "configuration" (map snd V12.app_code_files)
  /\ path_exists corpus_sample "src/config/" = true
  /\ matching corpus_sample "pagila" "src/config/" = []
  /\ dict_get "configuration" (V12.find_references corpus_sample "pagila")
     = None
  /\ keys (V12.find_references corpus_sample "pagila")
     = ["service_layer"; "business_logic"]
  /\ ~ (forall C, In C (map snd V12.app_code_files) ->
          exists l,
            dict_get C (V12.find_references corpus_sample "pagila") = Some l).
Proof.
  split; [simpl; auto |]. repeat split; try reflexivity.
  intros H. destruct (H "configuration") as (l & E); [simpl; auto |].
  vm_compute in E. discriminate.
Qed.

(** The earlier version's logic-heavy rule is a different one: with neither
    business logic nor analytics it reports a critical failure. *)
Example logic_heavy_rules_11_no_evidence :
  V11._validate_logic_heavy_rules corpus_empty "employees"
    (V11.mkScenarioDefinition "employees" LOGIC_HEAVY "CRITICAL"
       "hr-team@company.com" "Enterprise payroll system") []
  = Ok (tt, [mkResult "employees" LOGIC_HEAVY "logic_heavy_complexity"
               "FAIL" CRITICAL "Logic-heavy scenario lacks complex logic"
               ["Missing business logic and analytics"] []]).
Proof. reflexivity. Qed.

Lemma any_reference_readable (w : World) (db : string) (files : list string) :
  readable w ->
  V11.any_reference w db files = Ok (existsb (cites w db) files).
Proof.
  intros R. induction files as [| f files IH]; [reflexivity |].
  simpl. unfold cites at 1, references.
  destruct (path_exists w f) eqn:E; simpl; [| exact IH].
  destruct (R f E) as (content & ->).
  destruct (str_in db content); [reflexivity | exact IH].
Qed.

(** The completeness rule of the later version. *)
Lemma completeness_12 (w : World) (db : string) (sc : ScenarioType)
    (rs : list ValidationResult) :
  required sc <> [] ->
  exists r missing,
    V12._validate_scenario_separation w db sc rs = Ok (tt, rs ++ [r])
    /\ check_name r = "logic_heavy_complexity"
    /\ NoDup missing
    /\ (forall t, In t missing <->
                  In t (required sc)
                  /\ dict_index (V12.find_references w db) t = [])
    /\ (missing <> [] ->
        status r = "WARNING" /\ violation_type r = WARNING
        /\ violation_type r <> CRITICAL
        /\ details r = [("Missing: " ++ repr_list missing)%string])
    /\ (missing = [] -> status r = "PASS" /\ violation_type r = INFO).
Proof.
  intros R. destruct sc; try (now destruct R). clear R.
  unfold V12._validate_scenario_separation. cbv zeta.
  set (found := V12.find_references w db).
  set (missing := filter (fun t => negb (dict_mem t found))
                    (set_iter w ["business_logic"; "analytics"])).
  assert (ND : NoDup missing).
  { apply NoDup_filter.
    apply (Permutation_NoDup (Permutation_sym (set_iter_perm w _))).
    repeat constructor; simpl; intuition discriminate. }
  assert (IN : forall t, In t missing <->
                 In t (required LOGIC_HEAVY) /\ dict_index found t = []).
  { intros t. unfold missing. rewrite filter_In, negb_true_iff. simpl required.
    pose proof (find_references_nonempty w db t) as NE. fold found in NE.
    split; intros [I M]; split.
    - exact (Permutation_in _ (set_iter_perm w _) I).
    - destruct (dict_index found t); [reflexivity |].
      assert (dict_mem t found = true) by (apply NE; discriminate).
      congruence.
    - exact (Permutation_in _ (Permutation_sym (set_iter_perm w _)) I).
    - destruct (dict_mem t found); [| reflexivity].
      now destruct (proj1 NE eq_refl). }
  destruct missing as [| m ms] eqn:E; unfold truthy;
    eexists; eexists; rewrite add_result_run;
    (split; [reflexivity |]); (split; [reflexivity |]);
    (split; [exact ND |]); (split; [exact IN |]); split; simpl;
    intros; try congruence; repeat split; discriminate.
Qed.

(** The logic-heavy rule of the earlier version, when the files it reads
    can be read: one category with evidence is enough for a PASS, and with
    none the result is a critical failure. *)
Lemma logic_heavy_rules_11 (w : World) (db : string)
    (sd : V11.ScenarioDefinition) (rs : list ValidationResult) :
  readable w ->
  let has_business := existsb (cites w db) (glob w "src/business/**/*.py") in
  let has_analytics := existsb (cites w db) (glob w "src/analytics/**/*.py") in
  exists r,
    V11._validate_logic_heavy_rules w db sd rs = Ok (tt, rs ++ [r])
    /\ check_name r = "logic_heavy_complexity"
    /\ (has_business = true \/ has_analytics = true ->
        status r = "PASS" /\ violation_type r = INFO)
    /\ (has_business = false /\ has_analytics = false ->
        status r = "FAIL" /\ violation_type r = CRITICAL).
Proof.
  intros R has_business has_analytics.
  unfold V11._validate_logic_heavy_rules, bind, lift. cbv zeta.
  rewrite !(any_reference_readable w db _ R).
  fold has_business. fold has_analytics.
  destruct has_business, has_analytics; simpl; eexists;
    (split; [reflexivity |]); simpl; (split; [reflexivity |]);
    split; intros H; try (now split);
    repeat match goal with
           | H : _ /\ _ |- _ => destruct H
           | H : _ \/ _ |- _ => destruct H
           end; discriminate.
Qed.




(** C7 (as amended). The sequence recorded under a category lists the
    referencing artifacts in the order in which the directory enumeration
    yields them; it is sorted by path whenever that enumeration is. *)
Theorem C7_enumeration_order (w : World) (db dir C : string) :
  In (dir, C) V12.app_code_files ->
  dict_index (V12.find_references w db) C = matching w db dir
  /\ (is_sorted (rglob_py w dir) = true ->
      is_sorted (dict_index (V12.find_references w db) C) = true).
Proof.
  intros H. rewrite (find_references_index w db dir C H).
  split; [reflexivity |]. intros S. unfold matching.
  destruct (path_exists w dir); [| reflexivity].
  now apply is_sorted_filter.
Qed.

Lemma C7_enumeration_order_witness :
  In ("src/business/", "business_logic") V12.app_code_files
  /\ dict_index (V12.find_references corpus_sample "pagila") "business_logic"
     = matching corpus_sample "pagila" "src/business/"
  /\ (is_sorted (rglob_py corpus_sample "src/business/") = true ->
      is_sorted
        (dict_index (V12.find_references corpus_sample "pagila")
           "business_logic") = true).
Proof.
  assert (H : In ("src/business/", "business_logic") V12.app_code_files)
    by (simpl; auto).
  split; [exact H |].
  exact (C7_enumeration_order corpus_sample "pagila" "src/business/"
           "business_logic" H).
Defined.

(** C7, as stated, fails: the enumeration yields z_service.py before
    a_service.py, both mention pagila, and they are recorded in that order,
    which is not sorted by path. *)
Lemma C7_counterexample :
  dict_index (V12.find_references corpus_sample "pagila") "service_layer"
  = ["src/services/z_service.py"; "src/services/a_service.py"]
  /\ is_sorted
       (dict_index (V12.find_references corpus_sample "pagila")
          "service_layer") = false
  /\ ~ Sorted path_le
         (dict_index (V12.find_references corpus_sample "pagila")
            "service_layer").
Proof.
  split; [reflexivity |]. split; [reflexivity |].
  intros S. apply is_sorted_Sorted in S. vm_compute in S. discriminate.
Qed.

(** * Infrastructure presence *)

Lemma existsb_truthy_filter {A} (f : A -> bool) (l : list A) :
  existsb f l = truthy (filter f l).
Proof.
  induction l as [| a l IH]; [reflexivity |].
  simpl. destruct (f a); [reflexivity | exact IH].
Qed.

Lemma terraform_scan_matches_existsb (w : World) (db : string) matches :
  V12.terraform_scan_matches w db matches = existsb (references w db) matches.
Proof.
  induction matches as [| f l IH]; [reflexivity |].
  simpl. unfold references at 1.
  destruct (read_text w f) as [content | e]; [| exact IH].
  destruct (str_in db content); [reflexivity | exact IH].
Qed.

(** The two loops with their [break]s find a hit exactly when some matched
    file is readable and mentions the database. *)
Lemma terraform_scan_evidence (w : World) (db : string) :
  V12.terraform_scan w db V12.terraform_patterns
  = truthy (infrastructure_evidence w db).
Proof.
  unfold infrastructure_evidence. rewrite <- existsb_truthy_filter.
  induction V12.terraform_patterns as [| pat l IH]; [reflexivity |].
  simpl. rewrite existsb_app, terraform_scan_matches_existsb.
  destruct (existsb (references w db) (glob w pat)); [reflexivity | exact IH].
Qed.

Lemma terraform_references_run (w : World) (db : string) (files : list string) :
  (forall f, In f files -> path_exists w f = true ->
             exists content, read_text w f = Ok content) ->
  forall found,
    V11.terraform_references w db files found
    = Ok (found ++ filter (fun f => path_exists w f && references w db f)
                     files).
Proof.
  induction files as [| f files IH]; intros R found; simpl.
  - now rewrite app_nil_r.
  - assert (R' : forall f', In f' files -> path_exists w f' = true ->
                            exists content, read_text w f' = Ok content).
    { intros f' I. apply R. now right. }
    unfold references at 1.
    destruct (path_exists w f) eqn:E; simpl; [| now apply IH].
    destruct (R f (or_introl eq_refl) E) as (content & ->).
    destruct (str_in db content); [| now apply IH].
    rewrite IH by assumption. now rewrite <- app_assoc.
Qed.

(** The earlier version agrees, provided the Terraform files that exist can
    be read (it does not guard the read). *)
Lemma terraform_configuration_11 (w : World) (db : string)
    (sd : V11.ScenarioDefinition) (rs : list ValidationResult) :
  (forall f, In f V11.terraform_files -> path_exists w f = true ->
             exists content, read_text w f = Ok content) ->
  exists r,
    V11._validate_terraform_configuration w db sd rs = Ok (tt, rs ++ [r])
    /\ check_name r = "terraform_config"
    /\ (infrastructure_evidence_11 w db = [] ->
        status r = "FAIL" /\ violation_type r = CRITICAL)
    /\ (infrastructure_evidence_11 w db <> [] -> status r = "PASS").
Proof.
  intros R. unfold V11._validate_terraform_configuration, bind, lift.
  rewrite (terraform_references_run w db _ R []).
  change ([] ++ ?l) with l. fold (infrastructure_evidence_11 w db).
  destruct (infrastructure_evidence_11 w db) as [| f l]; unfold truthy;
    eexists; rewrite add_result_run; repeat split; simpl; congruence.
Qed.


(** * Monitoring and documentation presence *)

Lemma truthy_missing_forallb {A} (f : A -> bool) (l : list A) :
  truthy (filter (fun x => negb (f x)) l) = negb (forallb f l).
Proof.
  induction l as [| a l IH]; [reflexivity |].
  simpl. destruct (f a); simpl; [exact IH | reflexivity].
Qed.

Lemma monitoring_absent_12 (w : World) (db : string) (sc : ScenarioType) rs :
  glob w (monitor_pattern db) = [] ->
  V12._validate_monitoring_setup w db sc rs
  = Ok (tt, rs ++ [mkResult db sc "monitoring_config" "FAIL" CRITICAL
                     "No monitoring configuration found" [] []]).
Proof.
  intros G. unfold V12._validate_monitoring_setup. cbv zeta.
  fold (monitor_pattern db). now rewrite G.
Qed.

Lemma monitoring_present_12 (w : World) (db : string) (sc : ScenarioType) rs
    (f : string) (fs : list string) :
  glob w (monitor_pattern db) = f :: fs ->
  exists r,
    V12._validate_monitoring_setup w db sc rs = Ok (tt, rs ++ [r])
    /\ (monitor_complete w sc f = true ->
        status r = "PASS" /\ violation_type r = INFO)
    /\ (monitor_complete w sc f = false ->
        status r = "WARNING" /\ violation_type r = WARNING).
Proof.
  intros G. unfold V12._validate_monitoring_setup, monitor_complete. cbv zeta.
  fold (monitor_pattern db). rewrite G.
  destruct (read_text w f) as [content | e].
  - rewrite truthy_missing_forallb.
    destruct (forallb _ _); unfold negb;
      eexists; rewrite add_result_run; repeat split; simpl; congruence.
  - eexists; rewrite add_result_run; repeat split; simpl; congruence.
Qed.

Lemma monitoring_absent_11 (w : World) (db : string)
    (sd : V11.ScenarioDefinition) rs :
  path_exists w ("monitoring/database-monitors/" ++ db ++ "_monitor.yaml")%string
  = false ->
  V11._validate_monitoring_configuration w db sd rs
  = Ok (tt, rs ++ [mkResult db (V11.scenario_type sd) "monitoring_config"
                     "FAIL" CRITICAL "No monitoring configuration found"
                     [] []]).
Proof.
  intros E. unfold V11._validate_monitoring_configuration. cbv zeta.
  now rewrite E.
Qed.

Lemma documentation_absent_11 (w : World) (db : string)
    (sd : V11.ScenarioDefinition) rs :
  path_exists w "docs/database-ownership.md" = false ->
  V11._validate_documentation w db sd rs
  = Ok (tt, rs ++ [mkResult db (V11.scenario_type sd) "documentation"
                     "FAIL" CRITICAL "No documentation found" [] []]).
Proof.
  intros E. unfold V11._validate_documentation. cbv zeta. now rewrite E.
Qed.

(** C3 (as amended). When no monitoring artifact exists for a resource the
    monitoring check yields FAIL with severity CRITICAL, and so do the
    earlier version's monitoring and documentation checks when their file
    does not exist.  When the monitoring artifact exists the check yields
    PASS (severity INFO) if it is readable and mentions every required
    element, and WARNING (severity WARNING) otherwise. *)
Theorem C3_monitoring_presence (w : World) (db : string) (sc : ScenarioType)
    (rs : list ValidationResult) :
  (glob w (monitor_pattern db) = [] ->
   exists r,
     V12._validate_monitoring_setup w db sc rs = Ok (tt, rs ++ [r])
     /\ check_name r = "monitoring_config"
     /\ status r = "FAIL" /\ violation_type r = CRITICAL)
  /\ (forall f fs,
        glob w (monitor_pattern db) = f :: fs ->
        exists r,
          V12._validate_monitoring_setup w db sc rs = Ok (tt, rs ++ [r])
          /\ (monitor_complete w sc f = true ->
              status r = "PASS" /\ violation_type r = INFO)
          /\ (monitor_complete w sc f = false ->
              status r = "WARNING" /\ violation_type r = WARNING))
  /\ (forall sd,
        path_exists w
          ("monitoring/database-monitors/" ++ db ++ "_monitor.yaml")%string
        = false ->
        exists r,
          V11._validate_monitoring_configuration w db sd rs
          = Ok (tt, rs ++ [r])
          /\ status r = "FAIL" /\ violation_type r = CRITICAL)
  /\ (forall sd,
        path_exists w "docs/database-ownership.md" = false ->
        exists r,
          V11._validate_documentation w db sd rs = Ok (tt, rs ++ [r])
          /\ status r = "FAIL" /\ violation_type r = CRITICAL).
Proof.
  split; [| split; [| split]].
  - intros G. eexists. rewrite (monitoring_absent_12 w db sc rs G).
    repeat split.
  - intros f fs G. exact (monitoring_present_12 w db sc rs f fs G).
  - intros sd E. eexists. rewrite (monitoring_absent_11 w db sd rs E).
    repeat split.
  - intros sd E. eexists. rewrite (documentation_absent_11 w db sd rs E).
    repeat split.
Qed.

(** C3, as stated, fails: with no monitoring artifact for pagila the
    monitoring check reports FAIL with severity CRITICAL, not WARNING; the
    earlier version's documentation check does the same when the ownership
    document is missing. *)
Lemma C3_counterexample :
  glob corpus_empty (monitor_pattern "pagila") = []
  /\ V12._validate_monitoring_setup corpus_empty "pagila" MIXED []
     = Ok (tt, [mkResult "pagila" MIXED "monitoring_config" "FAIL" CRITICAL
                  "No monitoring configuration found" [] []])
  /\ path_exists corpus_empty "docs/database-ownership.md" = false
  /\ V11._validate_documentation corpus_empty "pagila"
       (V11.mkScenarioDefinition "pagila" MIXED "MEDIUM"
          "development-team@company.com" "DVD rental store database") []
     = Ok (tt, [mkResult "pagila" MIXED "documentation" "FAIL" CRITICAL
                  "No documentation found" [] []])
  /\ CRITICAL <> WARNING.
Proof. repeat split; discriminate. Qed.

(** * Read failures *)

Lemma references_unreadable_as (w : World) (db content : string) :
  str_in db content = false ->
  forall p, references (with_unreadable_as content w) db p = references w db p.
Proof.
  intros S p. unfold references, with_unreadable_as. simpl.
  destruct (read_text w p); [reflexivity | exact S].
Qed.

Lemma matching_unreadable_as (w : World) (db content : string) :
  str_in db content = false ->
  forall dir, matching (with_unreadable_as content w) db dir = matching w db dir.
Proof.
  intros S dir. unfold matching. simpl.
  destruct (path_exists w dir); [| reflexivity].
  apply filter_ext. apply references_unreadable_as. exact S.
Qed.

Lemma find_references_unreadable_as (w : World) (db content : string) :
  str_in db content = false ->
  V12.find_references (with_unreadable_as content w) db
  = V12.find_references w db.
Proof.
  intros S. rewrite !find_references_entries. unfold entries.
  apply flat_map_ext. intros e. now rewrite matching_unreadable_as.
Qed.

(** C8 (as amended). A read failure during the application-code scan or the
    Terraform scan is skipped without any record: the evidence, the
    separation result and the Terraform verdict are those obtained when the
    unreadable artifacts are readable and do not mention the resource.  Only
    a failure to read the monitoring artifact is recorded, as a result of
    status WARNING and severity WARNING carrying the error text. *)
Theorem C8_read_failures (w : World) (db content : string)
    (sc : ScenarioType) (rs : list ValidationResult) :
  str_in db content = false ->
  V12.find_references w db
  = V12.find_references (with_unreadable_as content w) db
  /\ V12._validate_scenario_separation w db sc rs
     = V12._validate_scenario_separation (with_unreadable_as content w) db sc rs
  /\ V12.terraform_scan w db V12.terraform_patterns
     = V12.terraform_scan (with_unreadable_as content w) db
         V12.terraform_patterns
  /\ (forall f fs e,
        glob w (monitor_pattern db) = f :: fs ->
        read_text w f = Raise e ->
        V12._validate_monitoring_setup w db sc rs
        = Ok (tt, rs ++ [mkResult db sc "monitoring_config" "WARNING" WARNING
                           ("Error reading monitor config: " ++ e)%string
                           [] []])).
Proof.
  intros S. pose proof (find_references_unreadable_as w db content S) as F.
  split; [now symmetry |]. split; [| split].
  - unfold V12._validate_scenario_separation. rewrite F. reflexivity.
  - rewrite !terraform_scan_evidence. unfold infrastructure_evidence. simpl.
    f_equal. apply filter_ext. intros p. symmetry.
    now apply references_unreadable_as.
  - intros f fs e G R. unfold V12._validate_monitoring_setup. cbv zeta.
    fold (monitor_pattern db). now rewrite G, R.
Qed.

Lemma C8_read_failures_witness :
  str_in "pagila" "# no database here" = false
  /\ V12.find_references (corpus_compliant ["src/config/broken.py"]) "pagila"
     = V12.find_references
         (with_unreadable_as "# no database here"
            (corpus_compliant ["src/config/broken.py"])) "pagila"
  /\ V12._validate_scenario_separation
       (corpus_compliant ["src/config/broken.py"]) "pagila" MIXED []
     = V12._validate_scenario_separation
         (with_unreadable_as "# no database here"
            (corpus_compliant ["src/config/broken.py"])) "pagila" MIXED []
  /\ V12.terraform_scan (corpus_compliant ["src/config/broken.py"]) "pagila"
       V12.terraform_patterns
     = V12.terraform_scan
         (with_unreadable_as "# no database here"
            (corpus_compliant ["src/config/broken.py"])) "pagila"
         V12.terraform_patterns
  /\ (forall f fs e,
        glob (corpus_compliant ["src/config/broken.py"])
          (monitor_pattern "pagila") = f :: fs ->
        read_text (corpus_compliant ["src/config/broken.py"]) f = Raise e ->
        V12._validate_monitoring_setup
          (corpus_compliant ["src/config/broken.py"]) "pagila" MIXED []
        = Ok (tt, [] ++ [mkResult "pagila" MIXED "monitoring_config"
                           "WARNING" WARNING
                           ("Error reading monitor config: " ++ e)%string
                           [] []])).
Proof.
  assert (S : str_in "pagila" "# no database here" = false) by reflexivity.
  split; [exact S |].
  exact (C8_read_failures (corpus_compliant ["src/config/broken.py"])
           "pagila" "# no database here" MIXED [] S).
Defined.

(** C8, as stated, fails: src/config/broken.py cannot be read, it is the
    only artifact of the configuration category, so no configuration
    evidence is collected for any database; yet the run succeeds with 36
    results none of which has status or severity WARNING, and these are
    the very results of the run on the corpus without that file. *)
Lemma C8_counterexample :
  rglob_py (corpus_compliant ["src/config/broken.py"]) "src/config/"
  = ["src/config/broken.py"]
  /\ read_text (corpus_compliant ["src/config/broken.py"])
       "src/config/broken.py"
     = Raise "'utf-8' codec can't decode byte 0xff in position 0"
  /\ forallb
       (fun e =>
          negb (dict_mem "configuration"
                  (V12.find_references
                     (corpus_compliant ["src/config/broken.py"]) (fst e))))
       V12.scenarios = true
  /\ exists rs,
       V12.validate_all_scenarios (corpus_compliant ["src/config/broken.py"]) []
       = Ok (true, rs)
       /\ V12.validate_all_scenarios (corpus_compliant []) [] = Ok (true, rs)
       /\ length rs = 36
       /\ forallb
            (fun r =>
               negb (ViolationType_eqb (violation_type r) WARNING)
               && negb (String.eqb (status r) "WARNING")) rs = true.
Proof.
  split; [reflexivity |]. split; [reflexivity |].
  split; [vm_compute; reflexivity |].
  eexists. split; [vm_compute; reflexivity |].
  split; vm_compute; auto.
Qed.

(** * Compliance rates *)

Lemma length_filter_count (f : ValidationResult -> bool) rs :
  length (filter f rs) = count_results f rs.
Proof.
  induction rs as [| r rs IH]; [reflexivity |].
  simpl. destruct (f r); simpl; now rewrite IH.
Qed.

Lemma filter_filter_and (f g : ValidationResult -> bool) rs :
  filter g (filter f rs) = filter (fun r => f r && g r) rs.
Proof.
  induction rs as [| r rs IH]; [reflexivity |].
  simpl. destruct (f r); simpl; [destruct (g r) |]; now rewrite IH.
Qed.

Lemma count_and_le (f g : ValidationResult -> bool) rs :
  count_results (fun r => f r && g r) rs <= count_results f rs.
Proof.
  induction rs as [| r rs IH]; [reflexivity |].
  simpl. destruct (f r), (g r); simpl; lia.
Qed.

Lemma percentage_value (p t : nat) :
  0 < t ->
  (inject_Z (Z.of_nat p) / inject_Z (Z.of_nat t) * 100
   == 100 * (Z.of_nat p # Pos.of_nat t))%Q.
Proof.
  intros H. rewrite (Qmake_Qdiv (Z.of_nat p) (Pos.of_nat t)).
  replace (Z.pos (Pos.of_nat t)) with (Z.of_nat t); [ring |].
  destruct t as [| t]; [lia |].
  now rewrite <- Pos.of_nat_succ, Zpos_P_of_succ_nat, Nat2Z.inj_succ.
Qed.

Lemma percentage_bounds (p t : nat) :
  0 < t -> p <= t ->
  (0 <= 100 * (Z.of_nat p # Pos.of_nat t) <= 100)%Q.
Proof.
  intros H L.
  assert (E : Z.pos (Pos.of_nat t) = Z.of_nat t).
  { destruct t as [| t]; [lia |].
    now rewrite <- Pos.of_nat_succ, Zpos_P_of_succ_nat, Nat2Z.inj_succ. }
  unfold Qle, Qmult, Qnum, Qden. rewrite !Pos.mul_1_l, E. split; nia.
Qed.

Lemma count_statuses_pass rs : forall c0 c,
  V12.count_statuses rs c0 = Ok c ->
  V12.n_pass c
  = V12.n_pass c0
    + count_results (fun r => String.eqb (status r) "PASS") rs.
Proof.
  induction rs as [| r rs IH]; intros c0 c E; simpl in *.
  - injection E as <-. lia.
  - unfold V12.bump in E.
    destruct (String.eqb (status r) "PASS");
      [| destruct (String.eqb (status r) "FAIL");
         [| destruct (String.eqb (status r) "WARNING");
            [| discriminate]]];
      apply IH in E; simpl in E; lia.
Qed.



(** C10. Evaluating one resource never raises and appends exactly four
    results, in the order separation check, terraform_config, helm_config,
    monitoring_config; the four check names are pairwise distinct, every
    result carries the resource and its scenario, and every status is one of
    PASS, FAIL and WARNING.  A whole run therefore returns with four
    results per database of the table. *)
Theorem C10_four_results (w : World) (db : string) (sc : ScenarioType)
    (rs : list ValidationResult) :
  (exists r1 r2 r3 r4,
     V12.validate_one w db sc rs = Ok (tt, rs ++ [r1; r2; r3; r4])
     /\ map check_name [r1; r2; r3; r4]
        = [separation_check_name sc; "terraform_config"; "helm_config";
           "monitoring_config"]
     /\ NoDup (map check_name [r1; r2; r3; r4])
     /\ Forall (fun r => database r = db /\ scenario r = sc
                         /\ known_status (status r)) [r1; r2; r3; r4])
  /\ (exists results success,
        V12.validate_all_scenarios w [] = Ok (success, results)
        /\ length results = 4 * length V12.scenarios
        /\ Forall (fun r => known_status (status r)) results).
Proof.
  split.
  - destruct (validate_one_run w db sc rs) as (r1 & r2 & r3 & r4 & R & N & K).
    exists r1, r2, r3, r4. repeat split; try assumption.
    rewrite N. destruct sc; simpl;
      repeat (constructor; [simpl; intuition discriminate |]); constructor.
  - destruct (main_run w) as (results & success & R & _ & L & K & _).
    exists results, success. repeat split; assumption.
Qed.

(** * Further properties of the later version *)

(** ** Methods only append *)

Lemma append_only_ret {A} (a : A) : append_only (ret a).
Proof. intros rs. unfold ret. now rewrite app_nil_r. Qed.

Lemma append_only_lift {A} (r : Res A) : append_only (lift r).
Proof. intros rs. unfold lift. destruct r; [now rewrite app_nil_r | reflexivity]. Qed.

Lemma append_only_add_result db sc cn st vt msg det refs :
  append_only (_add_result db sc cn st vt msg det refs).
Proof. intros rs. reflexivity. Qed.

Lemma append_only_bind {A B} (m : M A) (f : A -> M B) :
  append_only m -> (forall a, append_only (f a)) -> append_only (bind m f).
Proof.
  intros Hm Hf rs. unfold bind. rewrite (Hm rs).
  destruct (m []) as [[a d] | e]; [| reflexivity].
  rewrite (Hf a (rs ++ d)), (Hf a d).
  destruct (f a []) as [[b d'] | e]; [| reflexivity].
  now rewrite app_assoc.
Qed.

Lemma append_only_for_each {A} (l : list A) (body : A -> M unit) :
  (forall x, append_only (body x)) -> append_only (for_each l body).
Proof.
  intros H. induction l as [| x l IH]; simpl.
  - apply append_only_ret.
  - apply append_only_bind; [apply H | intros _; exact IH].
Qed.

Lemma append_only_run {A} (m : M A) a d :
  append_only m -> m [] = Ok (a, d) -> forall rs, m rs = Ok (a, rs ++ d).
Proof. intros H E rs. now rewrite (H rs), E. Qed.

Ltac append_only_cases :=
  repeat match goal with
         | |- append_only (if ?b then _ else _) => destruct b
         | |- append_only (match ?x with _ => _ end) => destruct x
         | |- append_only (bind _ _) => apply append_only_bind; [| intros ?]
         | |- append_only (lift _) => apply append_only_lift
         | |- append_only (_add_result _ _ _ _ _ _ _ _) =>
             apply append_only_add_result
         end.

Lemma append_only_separation w db sc :
  append_only (V12._validate_scenario_separation w db sc).
Proof.
  unfold V12._validate_scenario_separation. cbv zeta. append_only_cases.
Qed.

Lemma append_only_infrastructure w db sc :
  append_only (V12._validate_infrastructure_files w db sc).
Proof.
  unfold V12._validate_infrastructure_files. cbv zeta. append_only_cases.
Qed.

Lemma append_only_monitoring w db sc :
  append_only (V12._validate_monitoring_setup w db sc).
Proof.
  unfold V12._validate_monitoring_setup. cbv zeta. append_only_cases.
Qed.

Lemma append_only_validate_one w db sc :
  append_only (V12.validate_one w db sc).
Proof.
  unfold V12.validate_one.
  apply append_only_bind; [apply append_only_separation | intros _].
  apply append_only_bind; [apply append_only_infrastructure | intros _].
  apply append_only_monitoring.
Qed.

Lemma validate_one_frame w db sc rs :
  V12.validate_one w db sc rs
  = Ok (tt, rs ++ appended (V12.validate_one w db sc)).
Proof.
  destruct (validate_one_run w db sc []) as (r1 & r2 & r3 & r4 & R & _).
  rewrite (append_only_run _ tt _ (append_only_validate_one w db sc) R rs).
  unfold appended. now rewrite R.
Qed.

Lemma validate_one_appended w db sc :
  appended (V12.validate_one w db sc)
  = appended (V12._validate_scenario_separation w db sc)
    ++ appended (V12._validate_infrastructure_files w db sc)
    ++ appended (V12._validate_monitoring_setup w db sc).
Proof.
  destruct (separation_run w db sc []) as (r1 & E1 & _).
  destruct (infrastructure_run w db sc []) as (r2 & r3 & E2 & _).
  destruct (monitoring_run w db sc []) as (r4 & E4 & _).
  unfold appended at 1. unfold V12.validate_one, bind. rewrite E1.
  rewrite (append_only_run _ tt _ (append_only_infrastructure w db sc) E2).
  rewrite (append_only_run _ tt _ (append_only_monitoring w db sc) E4).
  unfold appended. rewrite E1, E2, E4. simpl. reflexivity.
Qed.

Lemma truthy_app {A} (l l' : list A) :
  truthy (l ++ l') = truthy l || truthy l'.
Proof. destruct l; reflexivity. Qed.

Lemma truthy_flat_map {A B} (f : A -> list B) (l : list A) :
  truthy (flat_map f l) = existsb (fun x => truthy (f x)) l.
Proof.
  induction l as [| x l IH]; [reflexivity |].
  simpl. now rewrite truthy_app, IH.
Qed.

Lemma critical_failures_app rs rs' :
  V12.critical_failures (rs ++ rs')
  = V12.critical_failures rs ++ V12.critical_failures rs'.
Proof. apply filter_app. Qed.

Lemma loop_appended (w : World)
    (table : list (string * (string * string * string))) :
  Forall (fun e => exists sc,
            ScenarioType_of_value (fst (fst (snd e))) = Ok sc) table ->
  forall rs,
    for_each table
      (fun '(database, (scenario_str, criticality, owner)) =>
         scenario_type <- lift (ScenarioType_of_value scenario_str) ;;
         V12.validate_one w database scenario_type) rs
    = Ok (tt,
          rs ++ flat_map
                  (fun e => appended (V12.validate_one w (fst e) (snd e)))
                  (flat_map
                     (fun e =>
                        match ScenarioType_of_value (fst (fst (snd e))) with
                        | Ok sc => [(fst e, sc)]
                        | Raise _ => []
                        end) table)).
Proof.
  induction 1 as [| [db [[s c] o]] table (sc & E) _ IH]; intros rs.
  - simpl. now rewrite app_nil_r.
  - simpl in E.
    change (for_each ((db, (s, c, o)) :: table) ?f)
      with (bind (f (db, (s, c, o))) (fun _ => for_each table f)).
    unfold bind at 1. cbv beta iota. unfold bind at 1, lift at 1.
    rewrite E, validate_one_frame, IH. simpl flat_map. rewrite E.
    simpl. now rewrite <- app_assoc.
Qed.

Lemma run_results_known (w : World) :
  Forall (fun r => known_status (status r)) (run_results w).
Proof.
  unfold run_results. apply Forall_flat_map, Forall_forall.
  intros [db sc] _. simpl.
  destruct (validate_one_run w db sc []) as (r1 & r2 & r3 & r4 & R & _ & K).
  unfold appended. rewrite R. simpl.
  eapply Forall_impl; [| exact K]. simpl. tauto.
Qed.

(** A run started on recorded results [rs]: the loop appends the results
    of a fresh run, then the report looks at all of them. *)
Lemma validate_all_scenarios_run (w : World) (rs : list ValidationResult) :
  Forall (fun r => known_status (status r)) rs ->
  V12.validate_all_scenarios w rs
  = Ok (negb (truthy (V12.critical_failures (rs ++ run_results w))),
        rs ++ run_results w).
Proof.
  intros K. unfold V12.validate_all_scenarios, bind at 1.
  rewrite (loop_appended w V12.scenarios scenarios_valid rs).
  fold registry. fold (run_results w).
  apply generate_report_run. apply Forall_app. split; [exact K |].
  apply run_results_known.
Qed.

(** ** Which results are critical *)

Lemma coherent_PASS db sc cn msg det refs :
  coherent (mkResult db sc cn "PASS" INFO msg det refs).
Proof. left. now split. Qed.

Lemma coherent_FAIL db sc cn msg det refs :
  coherent (mkResult db sc cn "FAIL" CRITICAL msg det refs).
Proof. right. left. now split. Qed.

Lemma coherent_WARNING db sc cn msg det refs :
  coherent (mkResult db sc cn "WARNING" WARNING msg det refs).
Proof. right. right. now split. Qed.

#[local] Hint Resolve coherent_PASS coherent_FAIL coherent_WARNING : checks.

Ltac coherent_cases :=
  repeat match goal with
         | |- context [if ?b then _ else _] => destruct b
         end;
  simpl; repeat (apply Forall_cons; [solve [auto with checks] |]);
  apply Forall_nil.

Lemma coherent_separation w db sc :
  Forall coherent (appended (V12._validate_scenario_separation w db sc)).
Proof.
  unfold appended, V12._validate_scenario_separation. cbv zeta.
  destruct sc; coherent_cases.
Qed.

Lemma coherent_infrastructure w db sc :
  Forall coherent (appended (V12._validate_infrastructure_files w db sc)).
Proof.
  unfold appended, V12._validate_infrastructure_files, bind. cbv zeta.
  destruct (V12.terraform_scan w db V12.terraform_patterns);
    rewrite add_result_run; destruct (truthy (glob w _));
    rewrite add_result_run; simpl;
    repeat (apply Forall_cons; [solve [auto with checks] |]);
    apply Forall_nil.
Qed.

Lemma coherent_monitoring w db sc :
  Forall coherent (appended (V12._validate_monitoring_setup w db sc)).
Proof.
  unfold appended, V12._validate_monitoring_setup. cbv zeta.
  destruct (glob w _) as [| f ?]; [coherent_cases |].
  destruct (read_text w f); coherent_cases.
Qed.

Lemma coherent_run (w : World) : Forall coherent (run_results w).
Proof.
  unfold run_results. apply Forall_flat_map, Forall_forall.
  intros [db sc] _. simpl. rewrite validate_one_appended.
  repeat (apply Forall_app; split).
  - apply coherent_separation.
  - apply coherent_infrastructure.
  - apply coherent_monitoring.
Qed.

Lemma coherent_critical_iff_FAIL (r : ValidationResult) :
  coherent r -> (critical_failure r <-> status r = "FAIL").
Proof.
  unfold coherent, critical_failure.
  intros [[S V] | [[S V] | [S V]]]; rewrite S, V;
    (split; [intros [H _] | intros H]);
    try discriminate; try (now split); reflexivity.
Qed.

Lemma truthy_entries (w : World) (db : string) :
  truthy (entries w db V12.app_code_files)
  = truthy (matching w db "src/config/")
    || truthy (matching w db "src/services/")
    || truthy (matching w db "src/business/")
    || truthy (matching w db "src/analytics/").
Proof.
  unfold entries. simpl.
  destruct (matching w db "src/config/");
    destruct (matching w db "src/services/");
    destruct (matching w db "src/business/");
    destruct (matching w db "src/analytics/"); reflexivity.
Qed.

Lemma truthy_forbidden_keys (w : World) (db : string) :
  truthy (filter (fun t => mem t ["business_logic"; "analytics"])
            (keys (entries w db V12.app_code_files)))
  = truthy (matching w db "src/business/")
    || truthy (matching w db "src/analytics/").
Proof.
  unfold entries. simpl.
  destruct (matching w db "src/config/");
    destruct (matching w db "src/services/");
    destruct (matching w db "src/business/");
    destruct (matching w db "src/analytics/"); reflexivity.
Qed.

Lemma forbidden_evidence (w : World) (db : string) (sc : ScenarioType) :
  existsb (fun C => truthy (dict_index (V12.find_references w db) C))
    (forbidden sc)
  = match sc with
    | CONFIG_ONLY =>
        truthy (matching w db "src/config/")
        || truthy (matching w db "src/services/")
        || truthy (matching w db "src/business/")
        || truthy (matching w db "src/analytics/")
    | MIXED =>
        truthy (matching w db "src/business/")
        || truthy (matching w db "src/analytics/")
    | LOGIC_HEAVY => false
    end.
Proof.
  destruct sc; simpl; [| | reflexivity].
  - rewrite (find_references_index w db "src/config/" "configuration")
      by (simpl; auto).
    rewrite (find_references_index w db "src/services/" "service_layer")
      by (simpl; auto).
    rewrite (find_references_index w db "src/business/" "business_logic")
      by (simpl; auto).
    rewrite (find_references_index w db "src/analytics/" "analytics")
      by (simpl; auto 6).
    now rewrite !orb_false_r, !orb_assoc.
  - rewrite (find_references_index w db "src/business/" "business_logic")
      by (simpl; auto).
    rewrite (find_references_index w db "src/analytics/" "analytics")
      by (simpl; auto 6).
    now rewrite !orb_false_r.
Qed.

Lemma critical_separation (w : World) (db : string) (sc : ScenarioType) :
  truthy (V12.critical_failures
            (appended (V12._validate_scenario_separation w db sc)))
  = existsb (fun C => truthy (dict_index (V12.find_references w db) C))
      (forbidden sc).
Proof.
  rewrite forbidden_evidence.
  unfold appended, V12._validate_scenario_separation. cbv zeta.
  rewrite find_references_entries. destruct sc.
  - rewrite <- truthy_entries.
    destruct (truthy (entries w db V12.app_code_files)); reflexivity.
  - rewrite <- truthy_forbidden_keys.
    destruct (truthy (filter _ _)); [reflexivity |].
    destruct (existsb _ _); reflexivity.
  - destruct (truthy (filter _ _)); reflexivity.
Qed.

Lemma critical_infrastructure (w : World) (db : string) (sc : ScenarioType) :
  truthy (V12.critical_failures
            (appended (V12._validate_infrastructure_files w db sc)))
  = negb (truthy (infrastructure_evidence w db)).
Proof.
  unfold appended, V12._validate_infrastructure_files, bind. cbv zeta.
  rewrite terraform_scan_evidence.
  destruct (truthy (infrastructure_evidence w db));
    rewrite add_result_run; destruct (truthy (glob w _));
    rewrite add_result_run; reflexivity.
Qed.

Lemma critical_monitoring (w : World) (db : string) (sc : ScenarioType) :
  truthy (V12.critical_failures
            (appended (V12._validate_monitoring_setup w db sc)))
  = negb (truthy (glob w (monitor_pattern db))).
Proof.
  unfold appended, V12._validate_monitoring_setup. cbv zeta.
  fold (monitor_pattern db).
  destruct (glob w (monitor_pattern db)) as [| f l]; [reflexivity |].
  change (negb (truthy (f :: l))) with false.
  destruct (read_text w f); [| reflexivity].
  destruct (truthy (filter (fun elem => negb _) _)); reflexivity.
Qed.

Lemma critical_validate_one (w : World) (db : string) (sc : ScenarioType) :
  truthy (V12.critical_failures (appended (V12.validate_one w db sc)))
  = blocking w db sc.
Proof.
  rewrite validate_one_appended, !critical_failures_app, !truthy_app.
  rewrite critical_separation, critical_infrastructure, critical_monitoring.
  unfold blocking. now rewrite orb_assoc.
Qed.

Lemma critical_flat_map {A} (f : A -> list ValidationResult) (l : list A) :
  truthy (V12.critical_failures (flat_map f l))
  = existsb (fun x => truthy (V12.critical_failures (f x))) l.
Proof.
  induction l as [| x l IH]; [reflexivity |].
  simpl. now rewrite critical_failures_app, truthy_app, IH.
Qed.

Lemma truthy_true_iff {A} (l : list A) : truthy l = true <-> l <> [].
Proof. destruct l; simpl; split; congruence. Qed.

Lemma existsb_false_iff {A} (f : A -> bool) (l : list A) :
  existsb f l = false <-> forall x, In x l -> f x = false.
Proof.
  induction l as [| a l IH]; simpl.
  - split; [intros _ x [] | reflexivity].
  - rewrite orb_false_iff, IH. split.
    + intros [Ha H] x [<- | I]; auto.
    + intros H. split; [apply H; now left | intros x I; apply H; now right].
Qed.

Lemma existsb_pointwise {A} (f g : A -> bool) (l : list A) :
  (forall x, f x = g x) -> existsb f l = existsb g l.
Proof.
  intros H. induction l as [| a l IH]; [reflexivity |].
  simpl. now rewrite H, IH.
Qed.

Lemma blocking_false_iff (w : World) (db : string) (sc : ScenarioType) :
  blocking w db sc = false <->
  (forall C, In C (forbidden sc) ->
             dict_index (V12.find_references w db) C = [])
  /\ infrastructure_evidence w db <> []
  /\ glob w (monitor_pattern db) <> [].
Proof.
  unfold blocking.
  rewrite !orb_false_iff, !negb_false_iff, !truthy_true_iff, existsb_false_iff.
  split.
  - intros [[F I] G]. split; [| now split].
    intros C HC. now apply truthy_false_iff, F.
  - intros (F & I & G). split; [split |]; try assumption.
    intros C HC. now apply truthy_false_iff, F.
Qed.

Lemma main_value (w : World) :
  V12.main w
  = Ok (if existsb (fun e => blocking w (fst e) (snd e)) registry
        then 1%Z else 0%Z).
Proof.
  unfold V12.main. rewrite (validate_all_scenarios_run w [] (Forall_nil _)).
  simpl app. unfold run_results. rewrite critical_flat_map.
  rewrite (existsb_pointwise
             (fun e => truthy (V12.critical_failures
                                 (appended (V12.validate_one w (fst e) (snd e)))))
             (fun e => blocking w (fst e) (snd e)) registry).
  - now destruct (existsb _ registry).
  - intros [db sc]. apply critical_validate_one.
Qed.

(** X1. A run on a validator that already holds results keeps them
    unchanged, appends exactly the 36 results of a fresh run, and succeeds
    exactly when neither the old nor the new results hold a critical
    failure: running twice doubles the results. *)
Theorem V12_run_accumulates (w : World) (rs : list ValidationResult) :
  Forall (fun r => known_status (status r)) rs ->
  exists fresh success,
    V12.validate_all_scenarios w [] = Ok (success, fresh)
    /\ length fresh = 36
    /\ V12.validate_all_scenarios w rs
       = Ok (negb (truthy (V12.critical_failures rs)) && success, rs ++ fresh)
    /\ V12.validate_all_scenarios w fresh = Ok (success, fresh ++ fresh).
Proof.
  intros K.
  exists (run_results w), (negb (truthy (V12.critical_failures (run_results w)))).
  pose proof (run_results_known w) as KR.
  destruct (main_run w) as (rs0 & s0 & R0 & _ & L0 & _).
  rewrite (validate_all_scenarios_run w [] (Forall_nil _)) in R0.
  simpl app in R0. injection R0 as _ <-.
  split; [exact (validate_all_scenarios_run w [] (Forall_nil _)) |].
  split; [exact L0 |]. split.
  - rewrite (validate_all_scenarios_run w rs K).
    now rewrite critical_failures_app, truthy_app, negb_orb.
  - rewrite (validate_all_scenarios_run w _ KR).
    rewrite critical_failures_app, truthy_app.
    now destruct (truthy (V12.critical_failures (run_results w))).
Qed.

Lemma V12_run_accumulates_witness :
  Forall (fun r => known_status (status r)) [result_pass; result_critical]
  /\ exists fresh success,
       V12.validate_all_scenarios corpus_sample [] = Ok (success, fresh)
       /\ length fresh = 36
       /\ V12.validate_all_scenarios corpus_sample
            [result_pass; result_critical]
          = Ok (negb (truthy (V12.critical_failures
                                [result_pass; result_critical])) && success,
                [result_pass; result_critical] ++ fresh)
       /\ V12.validate_all_scenarios corpus_sample fresh
          = Ok (success, fresh ++ fresh).
Proof.
  assert (K : Forall (fun r => known_status (status r))
                [result_pass; result_critical]).
  { repeat apply Forall_cons; try apply Forall_nil; simpl; auto with checks. }
  split; [exact K |].
  exact (V12_run_accumulates corpus_sample [result_pass; result_critical] K).
Defined.

(** X2. Every result of a run pairs PASS with INFO, FAIL with CRITICAL or
    WARNING with WARNING; hence the exit code is 0 exactly when no result
    of the run has status FAIL, and it is 1 otherwise. *)
Theorem V12_exit_code_iff_no_FAIL (w : World) :
  exists rs success,
    V12.validate_all_scenarios w [] = Ok (success, rs)
    /\ Forall coherent rs
    /\ (V12.main w = Ok 0%Z <-> forall r, In r rs -> status r <> "FAIL")
    /\ (V12.main w = Ok 1%Z <-> exists r, In r rs /\ status r = "FAIL").
Proof.
  exists (run_results w), (negb (truthy (V12.critical_failures (run_results w)))).
  pose proof (validate_all_scenarios_run w [] (Forall_nil _)) as R.
  simpl app in R. pose proof (coherent_run w) as C.
  rewrite Forall_forall in C.
  split; [exact R |]. split; [now apply Forall_forall |].
  unfold V12.main. rewrite R.
  destruct (truthy (V12.critical_failures (run_results w))) eqn:T; simpl.
  - assert (E : exists r, In r (run_results w) /\ status r = "FAIL").
    { apply truthy_true_iff in T.
      destruct (V12.critical_failures (run_results w)) as [| r l] eqn:F;
        [congruence |].
      assert (I : In r (V12.critical_failures (run_results w)))
        by (rewrite F; now left).
      apply filter_In in I. destruct I as [I Cr].
      apply is_critical_failure_iff in Cr. exists r. split; [exact I |].
      exact (proj1 Cr). }
    split; split; try discriminate; try reflexivity.
    + intros H. destruct E as (r & I & S). now destruct (H r I).
    + intros _. exact E.
  - assert (N : forall r, In r (run_results w) -> status r <> "FAIL").
    { intros r I S. apply (proj1 (no_critical_failures _) T r I).
      apply (coherent_critical_iff_FAIL r (C r I)). exact S. }
    split; split; try discriminate; try reflexivity.
    + intros _. exact N.
    + intros (r & I & S). now destruct (N r I).
Qed.

(** X3. The exit code is 0 exactly when every database of the table has no
    evidence in a category its scenario forbids, has infrastructure
    evidence and has a monitoring artifact; it is 1 otherwise.  Helm
    files, the content of the monitoring artifact and missing logic of a
    LOGIC_HEAVY database never change the exit code. *)
Theorem V12_exit_code_blocking (w : World) :
  map fst registry = map fst V12.scenarios
  /\ (V12.main w = Ok 0%Z \/ V12.main w = Ok 1%Z)
  /\ (V12.main w = Ok 0%Z <->
      forall db sc, In (db, sc) registry ->
        (forall C, In C (forbidden sc) ->
                   dict_index (V12.find_references w db) C = [])
        /\ infrastructure_evidence w db <> []
        /\ glob w (monitor_pattern db) <> []).
Proof.
  split; [reflexivity |]. rewrite main_value.
  destruct (existsb (fun e => blocking w (fst e) (snd e)) registry) eqn:E.
  - split; [now right |]. split; [discriminate |].
    intros H. exfalso.
    assert (F : existsb (fun e => blocking w (fst e) (snd e)) registry = false).
    { apply existsb_false_iff. intros [db sc] I. simpl.
      apply blocking_false_iff. now apply H. }
    congruence.
  - split; [now left |]. split; [intros _ | reflexivity].
    intros db sc I. apply blocking_false_iff.
    exact (proj1 (existsb_false_iff _ _) E (db, sc) I).
Qed.

(** ** The separation verdict in terms of the corpus *)

(** X4. For a CONFIG_ONLY database the separation result lists, category by
    category and in enumeration order, every application-code artifact that
    references the database; it is a PASS (severity INFO) exactly when
    there is none and a FAIL (severity CRITICAL) otherwise. *)
Theorem V12_config_only_verdict (w : World) (db : string)
    (rs : list ValidationResult) :
  exists r,
    V12._validate_scenario_separation w db CONFIG_ONLY rs = Ok (tt, rs ++ [r])
    /\ file_references r
       = flat_map (fun e => matching w db (fst e)) V12.app_code_files
    /\ (file_references r = [] <->
        status r = "PASS" /\ violation_type r = INFO)
    /\ (file_references r <> [] <->
        status r = "FAIL" /\ violation_type r = CRITICAL).
Proof.
  unfold V12._validate_scenario_separation. cbv zeta.
  rewrite find_references_entries.
  unfold entries, V12.app_code_files. cbn [flat_map fst snd].
  destruct (matching w db "src/config/");
    destruct (matching w db "src/services/");
    destruct (matching w db "src/business/");
    destruct (matching w db "src/analytics/");
    simpl; eexists; try rewrite add_result_run;
    (split; [reflexivity |]); simpl; rewrite ?app_nil_r;
    (split; [reflexivity |]);
    split; split; intros H; try (destruct H; discriminate);
    try discriminate; try congruence; try (now split).
Qed.

(** X5. For a MIXED database the separation result is a FAIL (severity
    CRITICAL) listing exactly the business-logic and analytics artifacts
    that reference the database when there is one; otherwise a PASS when a
    configuration or service artifact references it, and a WARNING when no
    application code references it at all. *)
Theorem V12_mixed_verdict (w : World) (db : string)
    (rs : list ValidationResult) :
  let allowed := matching w db "src/config/" ++ matching w db "src/services/" in
  let forbidden_refs :=
    matching w db "src/business/" ++ matching w db "src/analytics/" in
  exists r,
    V12._validate_scenario_separation w db MIXED rs = Ok (tt, rs ++ [r])
    /\ (forbidden_refs <> [] ->
        status r = "FAIL" /\ violation_type r = CRITICAL
        /\ file_references r = forbidden_refs)
    /\ (forbidden_refs = [] -> allowed <> [] ->
        status r = "PASS" /\ violation_type r = INFO
        /\ file_references r = [])
    /\ (forbidden_refs = [] -> allowed = [] ->
        status r = "WARNING" /\ violation_type r = WARNING
        /\ file_references r = []).
Proof.
  unfold V12._validate_scenario_separation. cbv zeta.
  rewrite find_references_entries.
  unfold entries, V12.app_code_files. cbn [flat_map fst snd].
  destruct (matching w db "src/config/");
    destruct (matching w db "src/services/");
    destruct (matching w db "src/business/");
    destruct (matching w db "src/analytics/");
    simpl; eexists; try rewrite add_result_run;
    (split; [reflexivity |]); simpl; rewrite ?app_nil_r;
    repeat split; intros; try congruence; try discriminate.
Qed.

(** ** The report on arbitrary result lists *)

Lemma count_statuses_ok_known rs : forall c0 c,
  V12.count_statuses rs c0 = Ok c ->
  Forall (fun r => known_status (status r)) rs.
Proof.
  induction rs as [| r rs IH]; intros c0 c E; [constructor |].
  simpl in E. unfold V12.bump in E.
  destruct (String.eqb_spec (status r) "PASS") as [P | _];
    [constructor; [now left | eapply IH; exact E] |].
  destruct (String.eqb_spec (status r) "FAIL") as [F | _];
    [constructor; [right; now left | eapply IH; exact E] |].
  destruct (String.eqb_spec (status r) "WARNING") as [W | _];
    [constructor; [right; now right | eapply IH; exact E] |].
  discriminate.
Qed.

Lemma count_partition rs :
  Forall (fun r => known_status (status r)) rs ->
  count_results (fun r => String.eqb (status r) "PASS") rs
  + count_results (fun r => String.eqb (status r) "FAIL") rs
  + count_results (fun r => String.eqb (status r) "WARNING") rs
  = length rs.
Proof.
  induction 1 as [| r rs K _ IH]; [reflexivity |].
  simpl. destruct K as [E | [E | E]]; rewrite E; simpl; lia.
Qed.

(** X6. The counting loop of the report succeeds exactly on result lists
    whose statuses are all PASS, FAIL or WARNING; its three counters are
    then the numbers of results of each status and add up to the number of
    results. *)
Theorem V12_status_counts (rs : list ValidationResult) :
  ((exists c, V12.count_statuses rs (V12.mkCounts 0 0 0) = Ok c) <->
   Forall (fun r => known_status (status r)) rs)
  /\ (forall c,
        V12.count_statuses rs (V12.mkCounts 0 0 0) = Ok c ->
        V12.n_pass c
        = count_results (fun r => String.eqb (status r) "PASS") rs
        /\ V12.n_fail c
           = count_results (fun r => String.eqb (status r) "FAIL") rs
        /\ V12.n_warning c
           = count_results (fun r => String.eqb (status r) "WARNING") rs
        /\ V12.n_pass c + V12.n_fail c + V12.n_warning c = length rs).
Proof.
  split.
  - split.
    + intros (c & E). eapply count_statuses_ok_known. exact E.
    + intros K. eexists. apply (count_statuses_known rs K).
  - intros c E. pose proof (count_statuses_ok_known rs _ _ E) as K.
    rewrite (count_statuses_known rs K) in E. injection E as <-. simpl.
    repeat split. now apply count_partition.
Qed.

Lemma count_statuses_raise pre r post :
  Forall (fun x => known_status (status x)) pre ->
  ~ known_status (status r) ->
  forall c,
    V12.count_statuses (pre ++ r :: post) c = Raise (repr_str (status r)).
Proof.
  intros K N. induction K as [| x pre Kx _ IH]; intros c; simpl.
  - unfold V12.bump, known_status in *.
    destruct (String.eqb_spec (status r) "PASS"); [tauto |].
    destruct (String.eqb_spec (status r) "FAIL"); [tauto |].
    destruct (String.eqb_spec (status r) "WARNING"); [tauto |].
    reflexivity.
  - destruct Kx as [E | [E | E]]; rewrite E; simpl; apply IH.
Qed.



(** * Properties of the earlier version *)

(** ** Its checks under readable files *)

Lemma fold_res_total {A B} (f : A -> B -> Res A) (l : list B) :
  (forall a x, exists a', f a x = Ok a') ->
  forall a, exists a', fold_res f l a = Ok a'.
Proof.
  intros H. induction l as [| x l IH]; intros a; simpl.
  - now exists a.
  - destruct (H a x) as (a' & ->). apply IH.
Qed.

Lemma scan_file_11_total (w : World) (db ct : string) :
  readable w ->
  forall d f, exists d', V11_rest.scan_file w db ct d f = Ok d'.
Proof.
  intros R d f. unfold V11_rest.scan_file.
  destruct (path_exists w f) eqn:E; [| now eexists].
  destruct (R f E) as (content & ->). now eexists.
Qed.

Lemma find_code_references_total (w : World) (db : string) :
  readable w -> exists d, V11_rest.find_code_references w db = Ok d.
Proof.
  intros R. unfold V11_rest.find_code_references.
  apply fold_res_total. intros d [pattern ct]. simpl.
  apply fold_res_total. now apply scan_file_11_total.
Qed.

Lemma purity_total (w : World) (db : string) groups :
  readable w ->
  forall v, exists v',
    fold_res (V11_rest.purity_group w db) groups v = Ok v'.
Proof.
  intros R. apply fold_res_total. intros v [files g]. simpl.
  apply fold_res_total. intros v' f. unfold V11_rest.purity_file.
  destruct (path_exists w f) eqn:E; [| now eexists].
  destruct (R f E) as (content & ->). now eexists.
Qed.

Lemma terraform_run_11 (w : World) db sd rs :
  readable w ->
  exists r,
    V11._validate_terraform_configuration w db sd rs = Ok (tt, rs ++ [r])
    /\ database r = db /\ scenario r = V11.scenario_type sd
    /\ check_name r = "terraform_config"
    /\ known_status (status r).
Proof.
  intros R. unfold V11._validate_terraform_configuration, bind, lift.
  rewrite (terraform_references_run w db _ (fun f _ => R f) []).
  destruct (truthy _); one_result.
Qed.

Lemma code_separation_run_11 (w : World) db sd rs :
  readable w ->
  exists r,
    V11_rest._validate_application_code_rules w db sd rs = Ok (tt, rs ++ [r])
    /\ database r = db /\ scenario r = V11.scenario_type sd
    /\ check_name r = "code_separation"
    /\ known_status (status r).
Proof.
  intros R. unfold V11_rest._validate_application_code_rules, bind, lift.
  destruct (find_code_references_total w db R) as (d & ->). cbv zeta.
  destruct (V11.scenario_type sd);
    repeat match goal with
           | |- context [if ?b then _ else _] => destruct b
           end; one_result.
Qed.

Lemma monitoring_run_11 (w : World) db sd rs :
  exists r,
    V11._validate_monitoring_configuration w db sd rs = Ok (tt, rs ++ [r])
    /\ database r = db /\ scenario r = V11.scenario_type sd
    /\ check_name r = "monitoring_config"
    /\ known_status (status r).
Proof.
  unfold V11._validate_monitoring_configuration. cbv zeta.
  destruct (path_exists w _); [| one_result].
  destruct (read_text w _); [| one_result].
  destruct (truthy _); one_result.
Qed.

Lemma helm_run_11 (w : World) db sd rs :
  exists r,
    V11_rest._validate_helm_configuration w db sd rs = Ok (tt, rs ++ [r])
    /\ database r = db /\ scenario r = V11.scenario_type sd
    /\ check_name r = "helm_config"
    /\ known_status (status r).
Proof.
  unfold V11_rest._validate_helm_configuration. cbv zeta.
  destruct (path_exists w _); one_result.
Qed.

Lemma documentation_run_11 (w : World) db sd rs :
  readable w ->
  exists r,
    V11._validate_documentation w db sd rs = Ok (tt, rs ++ [r])
    /\ database r = db /\ scenario r = V11.scenario_type sd
    /\ check_name r = "documentation"
    /\ known_status (status r).
Proof.
  intros R. unfold V11._validate_documentation. cbv zeta.
  destruct (path_exists w "docs/database-ownership.md") eqn:E; [| one_result].
  unfold bind, lift. destruct (R _ E) as (content & ->).
  destruct (_ && _); one_result.
Qed.

Lemma specific_run_11 (w : World) db sd rs :
  readable w ->
  exists r,
    match V11.scenario_type sd with
    | CONFIG_ONLY => V11_rest._validate_config_only_rules w db sd
    | MIXED => V11_rest._validate_mixed_scenario_rules w db sd
    | LOGIC_HEAVY => V11._validate_logic_heavy_rules w db sd
    end rs = Ok (tt, rs ++ [r])
    /\ database r = db /\ scenario r = V11.scenario_type sd
    /\ check_name r = scenario_check_name_11 (V11.scenario_type sd)
    /\ known_status (status r).
Proof.
  intros R. destruct (V11.scenario_type sd) eqn:S.
  - unfold V11_rest._validate_config_only_rules, bind, lift. cbv zeta.
    destruct (purity_total w db
                [(glob w "src/services/**/*.py", "service");
                 (glob w "src/business/**/*.py", "business");
                 (glob w "src/analytics/**/*.py", "analytics")] R [])
      as (v & ->).
    rewrite S. destruct (truthy v); one_result.
  - unfold V11_rest._validate_mixed_scenario_rules, bind, lift. cbv zeta.
    rewrite !(any_reference_readable w db _ R), S.
    destruct (_ && _); one_result.
  - unfold V11._validate_logic_heavy_rules, bind, lift. cbv zeta.
    rewrite !(any_reference_readable w db _ R), S.
    destruct (_ || _); one_result.
Qed.

Lemma validate_one_run_11 (w : World) db sd rs :
  readable w ->
  exists r1 r2 r3 r4 r5 r6,
    V11_rest.validate_one w db sd rs
    = Ok (tt, rs ++ [r1; r2; r3; r4; r5; r6])
    /\ map check_name [r1; r2; r3; r4; r5; r6]
       = ["terraform_config"; "code_separation"; "monitoring_config";
          "helm_config"; "documentation";
          scenario_check_name_11 (V11.scenario_type sd)]
    /\ Forall (fun r => database r = db
                        /\ scenario r = V11.scenario_type sd
                        /\ known_status (status r))
         [r1; r2; r3; r4; r5; r6].
Proof.
  intros R.
  destruct (terraform_run_11 w db sd rs R) as (r1 & E1 & D1 & S1 & N1 & K1).
  destruct (code_separation_run_11 w db sd (rs ++ [r1]) R)
    as (r2 & E2 & D2 & S2 & N2 & K2).
  destruct (monitoring_run_11 w db sd ((rs ++ [r1]) ++ [r2]))
    as (r3 & E3 & D3 & S3 & N3 & K3).
  destruct (helm_run_11 w db sd (((rs ++ [r1]) ++ [r2]) ++ [r3]))
    as (r4 & E4 & D4 & S4 & N4 & K4).
  destruct (documentation_run_11 w db sd
              ((((rs ++ [r1]) ++ [r2]) ++ [r3]) ++ [r4]) R)
    as (r5 & E5 & D5 & S5 & N5 & K5).
  destruct (specific_run_11 w db sd
              (((((rs ++ [r1]) ++ [r2]) ++ [r3]) ++ [r4]) ++ [r5]) R)
    as (r6 & E6 & D6 & S6 & N6 & K6).
  exists r1, r2, r3, r4, r5, r6. split; [| split].
  - unfold V11_rest.validate_one, bind. rewrite E1, E2, E3, E4, E5, E6.
    now rewrite <- !app_assoc.
  - simpl. now rewrite N1, N2, N3, N4, N5, N6.
  - repeat (apply Forall_cons; [repeat split; assumption |]).
    apply Forall_nil.
Qed.

Lemma loop_run_11 (w : World)
    (table : list (string * V11.ScenarioDefinition)) :
  readable w ->
  forall rs, exists rs',
    for_each table
      (fun '(database, scenario_def) =>
         V11_rest.validate_one w database scenario_def) rs
    = Ok (tt, rs ++ rs')
    /\ length rs' = 6 * length table
    /\ Forall (fun r => known_status (status r)) rs'.
Proof.
  intros R. induction table as [| [db sd] table IH]; intros rs.
  - exists []. simpl. now rewrite app_nil_r.
  - destruct (validate_one_run_11 w db sd rs R)
      as (r1 & r2 & r3 & r4 & r5 & r6 & E & _ & K).
    destruct (IH (rs ++ [r1; r2; r3; r4; r5; r6])) as (rs' & E' & L & K').
    exists ([r1; r2; r3; r4; r5; r6] ++ rs'). split; [| split].
    + change (for_each ((db, sd) :: table) ?f)
        with (bind (f (db, sd)) (fun _ => for_each table f)).
      unfold bind at 1. cbv beta iota. rewrite E, E'.
      now rewrite <- app_assoc.
    + rewrite length_app, L. simpl. lia.
    + apply Forall_app. split; [| assumption].
      eapply Forall_impl; [| exact K]. simpl. tauto.
Qed.

Lemma generate_validation_report_run (rs : list ValidationResult) :
  Forall (fun r => known_status (status r)) rs ->
  V11._generate_validation_report rs
  = Ok (negb (truthy (V12.critical_failures rs)), rs).
Proof.
  intros K. unfold V11._generate_validation_report, bind, get_results, lift.
  rewrite (count_statuses_known rs K). cbv zeta.
  destruct (truthy (V12.critical_failures rs)); [reflexivity |].
  now destruct (Nat.ltb _ _).
Qed.

Lemma validate_all_scenarios_run_11 (w : World) :
  readable w ->
  exists rs,
    V11_rest.validate_all_scenarios w [] = Ok (rs, rs)
    /\ length rs = 54
    /\ Forall (fun r => known_status (status r)) rs.
Proof.
  intros R. destruct (loop_run_11 w V11_rest.scenarios R []) as (rs & E & L & K).
  exists rs. split; [| split; assumption].
  unfold V11_rest.validate_all_scenarios, bind at 1. rewrite E. simpl app.
  unfold bind. now rewrite (generate_validation_report_run rs K).
Qed.

(** X8. In the earlier version, when every existing file can be read, the
    evaluation of one database appends exactly six results, in the order
    terraform_config, code_separation, monitoring_config, helm_config,
    documentation and the check of its scenario, each with the database,
    its scenario and a status among PASS, FAIL and WARNING; a whole run
    returns its 54 results. *)
Theorem V11_six_results (w : World) (db : string)
    (sd : V11.ScenarioDefinition) (rs : list ValidationResult) :
  readable w ->
  (exists r1 r2 r3 r4 r5 r6,
     V11_rest.validate_one w db sd rs
     = Ok (tt, rs ++ [r1; r2; r3; r4; r5; r6])
     /\ map check_name [r1; r2; r3; r4; r5; r6]
        = ["terraform_config"; "code_separation"; "monitoring_config";
           "helm_config"; "documentation";
           scenario_check_name_11 (V11.scenario_type sd)]
     /\ Forall (fun r => database r = db
                         /\ scenario r = V11.scenario_type sd
                         /\ known_status (status r))
          [r1; r2; r3; r4; r5; r6])
  /\ (exists results,
        V11_rest.validate_all_scenarios w [] = Ok (results, results)
        /\ length results = 6 * length V11_rest.scenarios).
Proof.
  intros R. split; [now apply validate_one_run_11 |].
  destruct (validate_all_scenarios_run_11 w R) as (results & E & L & _).
  exists results. split; [exact E | exact L].
Qed.

Lemma corpus_readable_readable : readable corpus_readable.
Proof. intros p _. now eexists. Qed.

Lemma V11_six_results_witness :
  readable corpus_readable
  /\ (exists r1 r2 r3 r4 r5 r6,
        V11_rest.validate_one corpus_readable "pagila"
          (V11.mkScenarioDefinition "pagila" MIXED "MEDIUM"
             "development-team@company.com" "DVD rental store database") []
        = Ok (tt, [] ++ [r1; r2; r3; r4; r5; r6])
        /\ map check_name [r1; r2; r3; r4; r5; r6]
           = ["terraform_config"; "code_separation"; "monitoring_config";
              "helm_config"; "documentation";
              scenario_check_name_11
                (V11.scenario_type
                   (V11.mkScenarioDefinition "pagila" MIXED "MEDIUM"
                      "development-team@company.com"
                      "DVD rental store database"))]
        /\ Forall (fun r => database r = "pagila"
                            /\ scenario r
                               = V11.scenario_type
                                   (V11.mkScenarioDefinition "pagila" MIXED
                                      "MEDIUM" "development-team@company.com"
                                      "DVD rental store database")
                            /\ known_status (status r))
             [r1; r2; r3; r4; r5; r6])
  /\ (exists results,
        V11_rest.validate_all_scenarios corpus_readable []
        = Ok (results, results)
        /\ length results = 6 * length V11_rest.scenarios).
Proof.
  split; [exact corpus_readable_readable |].
  exact (V11_six_results corpus_readable "pagila"
           (V11.mkScenarioDefinition "pagila" MIXED "MEDIUM"
              "development-team@company.com" "DVD rental store database")
           [] corpus_readable_readable).
Defined.

(** ** Unreadable files *)

Lemma terraform_references_raise (w : World) (files : list string) :
  (exists f, In f files /\ path_exists w f = true
             /\ exists e, read_text w f = Raise e) ->
  exists f e,
    In f files /\ path_exists w f = true /\ read_text w f = Raise e
    /\ forall db found, V11.terraform_references w db files found = Raise e.
Proof.
  induction files as [| g files IH]; intros (f & I & E & e & R).
  - destruct I.
  - destruct (path_exists w g) eqn:Eg.
    + destruct (read_text w g) as [content | eg] eqn:Rg.
      * destruct I as [<- | I]; [congruence |].
        destruct IH as (f' & e' & I' & E' & R' & H);
          [exists f; repeat split; [assumption .. | now exists e] |].
        exists f', e'. repeat split; try assumption; [now right |].
        intros db found. simpl. rewrite Eg, Rg.
        destruct (str_in db content); apply H.
      * exists g, eg. repeat split; try assumption; [now left |].
        intros db found. simpl. now rewrite Eg, Rg.
    + destruct I as [<- | I]; [congruence |].
      destruct IH as (f' & e' & I' & E' & R' & H);
        [exists f; repeat split; [assumption .. | now exists e] |].
      exists f', e'. repeat split; try assumption; [now right |].
      intros db found. simpl. rewrite Eg. apply H.
Qed.

(** X9. The earlier version does not guard its Terraform reads: if one of
    the three Terraform files exists and cannot be read, the Terraform
    check raises that read's error for every database, and [main] raises it
    too, so there is neither a report nor an exit code (the later version
    never raises). *)
Theorem V11_unreadable_terraform_aborts (w : World)
    (save : list ResultData -> Res unit) (f e : string) :
  In f V11.terraform_files ->
  path_exists w f = true ->
  read_text w f = Raise e ->
  exists f' e',
    In f' V11.terraform_files
    /\ path_exists w f' = true /\ read_text w f' = Raise e'
    /\ (forall db sd rs,
          V11._validate_terraform_configuration w db sd rs = Raise e')
    /\ V11_rest.main w save = Raise e'.
Proof.
  intros I E R.
  destruct (terraform_references_raise w V11.terraform_files)
    as (f' & e' & I' & E' & R' & H).
  { exists f. repeat split; try assumption. now exists e. }
  exists f', e'. repeat split; try assumption.
  - intros db sd rs.
    unfold V11._validate_terraform_configuration, bind, lift. now rewrite H.
  - unfold V11_rest.main, V11_rest.validate_all_scenarios, V11_rest.scenarios.
    cbn [for_each]. unfold bind at 1. unfold bind at 1.
    unfold V11_rest.validate_one at 1. unfold bind at 1.
    unfold V11._validate_terraform_configuration at 1, bind at 1, lift at 1.
    now rewrite H.
Qed.

Lemma V11_unreadable_terraform_aborts_witness :
  In "terraform/modules/database/main.tf" V11.terraform_files
  /\ path_exists corpus_locked_terraform "terraform/modules/database/main.tf"
     = true
  /\ read_text corpus_locked_terraform "terraform/modules/database/main.tf"
     = Raise "[Errno 13] Permission denied"
  /\ exists f' e',
       In f' V11.terraform_files
       /\ path_exists corpus_locked_terraform f' = true
       /\ read_text corpus_locked_terraform f' = Raise e'
       /\ (forall db sd rs,
             V11._validate_terraform_configuration corpus_locked_terraform
               db sd rs = Raise e')
       /\ V11_rest.main corpus_locked_terraform (fun _ => Ok tt) = Raise e'.
Proof.
  assert (I : In "terraform/modules/database/main.tf" V11.terraform_files)
    by (simpl; auto).
  assert (E : path_exists corpus_locked_terraform
                "terraform/modules/database/main.tf" = true) by reflexivity.
  assert (R : read_text corpus_locked_terraform
                "terraform/modules/database/main.tf"
              = Raise "[Errno 13] Permission denied") by reflexivity.
  split; [exact I |]. split; [exact E |]. split; [exact R |].
  exact (V11_unreadable_terraform_aborts corpus_locked_terraform
           (fun _ => Ok tt) _ _ I E R).
Defined.

(** ** Exit code and saved results *)

(** X10. In the earlier version, when every existing file can be read,
    [main] raises the error of the unguarded write of the results if that
    write fails; otherwise its exit code is 1 when some result is a FAIL of
    CRITICAL severity and 0 when none is, which is the verdict the report
    had returned: a FAIL of another severity does not change it. *)
Theorem V11_main_exit_code (w : World) (save : list ResultData -> Res unit) :
  readable w ->
  exists results,
    V11_rest.validate_all_scenarios w [] = Ok (results, results)
    /\ (forall e, save (results_data results) = Raise e ->
                  V11_rest.main w save = Raise e)
    /\ (forall u, save (results_data results) = Ok u ->
          exists code,
            V11_rest.main w save = Ok code
            /\ (code = 0%Z \/ code = 1%Z)
            /\ (code = 0%Z <->
                forall r, In r results -> ~ critical_failure r)
            /\ V11._generate_validation_report results
               = Ok (Z.eqb code 0, results)).
Proof.
  intros R. destruct (validate_all_scenarios_run_11 w R) as (rs & E & _ & K).
  exists rs. split; [exact E |]. split.
  - intros e S. unfold V11_rest.main. now rewrite E, S.
  - intros u S. unfold V11_rest.main. rewrite E, S. cbv zeta.
    fold V12.is_critical_failure. fold (V12.critical_failures rs).
    rewrite (generate_validation_report_run rs K).
    pose proof (no_critical_failures rs) as N.
    destruct (truthy (V12.critical_failures rs)); eexists;
      (split; [reflexivity |]); simpl.
    + split; [now right |]. split; [| reflexivity].
      split; [discriminate |]. intros H. apply N in H. discriminate.
    + split; [now left |]. split; [| reflexivity].
      split; [intros _; now apply N | reflexivity].
Qed.

Lemma V11_main_exit_code_witness :
  readable corpus_readable
  /\ exists results,
       V11_rest.validate_all_scenarios corpus_readable []
       = Ok (results, results)
       /\ (forall e, (fun _ : list ResultData => @Ok unit tt)
                       (results_data results) = Raise e ->
                     V11_rest.main corpus_readable (fun _ => Ok tt) = Raise e)
       /\ (forall u, (fun _ : list ResultData => @Ok unit tt)
                       (results_data results) = Ok u ->
             exists code,
               V11_rest.main corpus_readable (fun _ => Ok tt) = Ok code
               /\ (code = 0%Z \/ code = 1%Z)
               /\ (code = 0%Z <->
                   forall r, In r results -> ~ critical_failure r)
               /\ V11._generate_validation_report results
                  = Ok (Z.eqb code 0, results)).
Proof.
  split; [exact corpus_readable_readable |].
  exact (V11_main_exit_code corpus_readable (fun _ => Ok tt)
           corpus_readable_readable).
Defined.

Lemma ScenarioType_value_inj (a b : ScenarioType) :
  ScenarioType_value a = ScenarioType_value b -> a = b.
Proof. destruct a, b; simpl; intros H; try reflexivity; discriminate. Qed.

Lemma ViolationType_value_inj (a b : ViolationType) :
  ViolationType_value a = ViolationType_value b -> a = b.
Proof. destruct a, b; simpl; intros H; try reflexivity; discriminate. Qed.

(** X11. The records written to validation_results.json lose nothing: they
    are as many as the results, in the same order, and two result lists
    that give the same records are equal; the scenario string of a record
    converts back to the scenario of its result. *)
Theorem results_data_faithful (rs rs' : list ValidationResult) :
  length (results_data rs) = length rs
  /\ map rd_check (results_data rs) = map check_name rs
  /\ Forall2 (fun r d => ScenarioType_of_value (rd_scenario d)
                         = Ok (scenario r)) rs (results_data rs)
  /\ (results_data rs = results_data rs' -> rs = rs').
Proof.
  split; [apply length_map |]. split; [| split].
  - unfold results_data. rewrite map_map. reflexivity.
  - induction rs as [| r rs IH]; simpl; constructor; [| exact IH].
    simpl. now destruct (scenario r).
  - revert rs'. induction rs as [| r rs IH]; intros [| r' rs'] H;
      simpl in H; try discriminate; [reflexivity |].
    injection H as D S C St V M De F T.
    apply ScenarioType_value_inj in S. apply ViolationType_value_inj in V.
    rewrite (IH rs' T). destruct r, r'. simpl in *. now subst.
Qed.

(** ** Scenario-specific checks of the earlier version *)

(** X12. [any(...)] over files stops at the first existing file that
    mentions the database: files after it are never read, so an unreadable
    one among them does not raise; an existing unreadable file met before
    any hit raises its error. *)
Theorem V11_any_reference_short_circuit (w : World) (db f : string)
    (pre post : list string) :
  (forall p, In p pre -> cites w db p = false
                         /\ (path_exists w p = true ->
                             exists content, read_text w p = Ok content)) ->
  path_exists w f = true ->
  (forall content, read_text w f = Ok content -> str_in db content = true ->
                   V11.any_reference w db (pre ++ f :: post) = Ok true)
  /\ (forall e, read_text w f = Raise e ->
                V11.any_reference w db (pre ++ f :: post) = Raise e).
Proof.
  intros P E.
  assert (H : V11.any_reference w db (pre ++ f :: post)
              = V11.any_reference w db (f :: post)).
  { induction pre as [| p pre IH]; [reflexivity |].
    simpl. destruct (P p (or_introl eq_refl)) as [C R].
    unfold cites, references in C.
    destruct (path_exists w p) eqn:Ep.
    - destruct (R eq_refl) as (content & Rd). rewrite Rd in *. simpl in C.
      rewrite C. apply IH. intros q I. apply P. now right.
    - apply IH. intros q I. apply P. now right. }
  rewrite H. simpl. rewrite E. split.
  - intros content R S. now rewrite R, S.
  - intros e R. now rewrite R.
Qed.

Lemma V11_any_reference_short_circuit_witness :
  (forall p, In p ["src/config/settings.py"] ->
             cites corpus_sample "pagila" p = false
             /\ (path_exists corpus_sample p = true ->
                 exists content, read_text corpus_sample p = Ok content))
  /\ path_exists corpus_sample "src/services/z_service.py" = true
  /\ (forall content,
        read_text corpus_sample "src/services/z_service.py" = Ok content ->
        str_in "pagila" content = true ->
        V11.any_reference corpus_sample "pagila"
          (["src/config/settings.py"]
           ++ "src/services/z_service.py" :: ["src/services/missing.py"])
        = Ok true)
  /\ (forall e,
        read_text corpus_sample "src/services/z_service.py" = Raise e ->
        V11.any_reference corpus_sample "pagila"
          (["src/config/settings.py"]
           ++ "src/services/z_service.py" :: ["src/services/missing.py"])
        = Raise e).
Proof.
  assert (P : forall p, In p ["src/config/settings.py"] ->
                cites corpus_sample "pagila" p = false
                /\ (path_exists corpus_sample p = true ->
                    exists content, read_text corpus_sample p = Ok content)).
  { intros p [<- | []]. split; [reflexivity | intros _; now eexists]. }
  assert (E : path_exists corpus_sample "src/services/z_service.py" = true)
    by reflexivity.
  split; [exact P |]. split; [exact E |].
  exact (V11_any_reference_short_circuit corpus_sample "pagila"
           "src/services/z_service.py" ["src/config/settings.py"]
           ["src/services/missing.py"] P E).
Defined.

(** X13. In the earlier version, when every existing file can be read, the
    structure check of a MIXED database is a PASS exactly when both a
    configuration file and a service file mention the database; otherwise
    it is a WARNING (never a failure) whose detail names exactly the
    missing layers. *)
Theorem V11_mixed_structure (w : World) (db : string)
    (sd : V11.ScenarioDefinition) (rs : list ValidationResult) :
  readable w ->
  let has_config := existsb (cites w db) (glob w "src/config/**/*.py") in
  let has_service := existsb (cites w db) (glob w "src/services/**/*.py") in
  exists r,
    V11_rest._validate_mixed_scenario_rules w db sd rs = Ok (tt, rs ++ [r])
    /\ check_name r = "mixed_scenario_structure"
    /\ (has_config = true /\ has_service = true <->
        status r = "PASS" /\ violation_type r = INFO)
    /\ (has_config = false \/ has_service = false <->
        status r = "WARNING" /\ violation_type r = WARNING)
    /\ (has_config = false \/ has_service = false ->
        details r
        = [("Missing: "
            ++ repr_list
                 (filter (fun layer =>
                            if String.eqb layer "configuration"
                            then negb has_config else negb has_service)
                    ["configuration"; "service layer"]))%string]).
Proof.
  intros R has_config has_service.
  unfold V11_rest._validate_mixed_scenario_rules, bind, lift. cbv zeta.
  rewrite !(any_reference_readable w db _ R).
  fold has_config. fold has_service.
  destruct has_config, has_service; simpl; eexists;
    (split; [reflexivity |]); simpl; (split; [reflexivity |]);
    repeat split; intros; try tauto; try discriminate;
    try (now left); try (now right);
    repeat match goal with
           | H : _ /\ _ |- _ => destruct H
           | H : _ \/ _ |- _ => destruct H
           end; try discriminate.
Qed.

Lemma V11_mixed_structure_witness :
  readable corpus_readable
  /\ (let has_config :=
        existsb (cites corpus_readable "pagila")
          (glob corpus_readable "src/config/**/*.py") in
      let has_service :=
        existsb (cites corpus_readable "pagila")
          (glob corpus_readable "src/services/**/*.py") in
      exists r,
        V11_rest._validate_mixed_scenario_rules corpus_readable "pagila"
          (V11.mkScenarioDefinition "pagila" MIXED "MEDIUM"
             "development-team@company.com" "DVD rental store database") []
        = Ok (tt, [] ++ [r])
        /\ check_name r = "mixed_scenario_structure"
        /\ (has_config = true /\ has_service = true <->
            status r = "PASS" /\ violation_type r = INFO)
        /\ (has_config = false \/ has_service = false <->
            status r = "WARNING" /\ violation_type r = WARNING)
        /\ (has_config = false \/ has_service = false ->
            details r
            = [("Missing: "
                ++ repr_list
                     (filter (fun layer =>
                                if String.eqb layer "configuration"
                                then negb has_config else negb has_service)
                        ["configuration"; "service layer"]))%string])).
Proof.
  split; [exact corpus_readable_readable |].
  exact (V11_mixed_structure corpus_readable "pagila"
           (V11.mkScenarioDefinition "pagila" MIXED "MEDIUM"
              "development-team@company.com" "DVD rental store database")
           [] corpus_readable_readable).
Defined.

Lemma purity_files_run (w : World) (db g : string) (files : list string) :
  readable w ->
  forall v,
    fold_res (V11_rest.purity_file w db g) files v
    = Ok (v ++ map (fun f => ("Found reference in " ++ g ++ ": " ++ f)%string)
                 (filter (cites w db) files)).
Proof.
  intros R. induction files as [| f files IH]; intros v; simpl.
  - now rewrite app_nil_r.
  - unfold V11_rest.purity_file at 1. unfold cites at 1, references.
    destruct (path_exists w f) eqn:E; simpl; [| apply IH].
    destruct (R f E) as (content & ->).
    destruct (str_in db content); [| apply IH].
    rewrite IH. simpl. now rewrite <- app_assoc.
Qed.

(** X14. In the earlier version, when every existing file can be read, the
    purity check of a CONFIG_ONLY database reports one violation line for
    each service, business and analytics file mentioning the database, in
    that order, naming the group and the file; it never looks at
    configuration files and records no file references.  It is a PASS
    exactly when there is no such line and a FAIL of severity CRITICAL
    otherwise. *)
Theorem V11_config_only_purity (w : World) (db : string)
    (sd : V11.ScenarioDefinition) (rs : list ValidationResult) :
  readable w ->
  exists r,
    V11_rest._validate_config_only_rules w db sd rs = Ok (tt, rs ++ [r])
    /\ check_name r = "config_only_purity"
    /\ details r
       = flat_map
           (fun g =>
              map (fun f =>
                     ("Found reference in " ++ snd g ++ ": " ++ f)%string)
                (citing w db (fst g)))
           [ ("src/services/**/*.py", "service");
             ("src/business/**/*.py", "business");
             ("src/analytics/**/*.py", "analytics") ]
    /\ file_references r = []
    /\ (details r = [] <-> status r = "PASS" /\ violation_type r = INFO)
    /\ (details r <> [] <-> status r = "FAIL" /\ violation_type r = CRITICAL).
Proof.
  intros R. unfold V11_rest._validate_config_only_rules, bind, lift. cbv zeta.
  cbn [fold_res V11_rest.purity_group].
  rewrite !(purity_files_run w db _ _ R). cbn [app flat_map fst snd].
  rewrite app_nil_r, <- !app_assoc. unfold citing.
  match goal with
  | |- context [truthy ?l] => destruct l as [| v vs] eqn:E
  end; unfold truthy; eexists; rewrite add_result_run;
    (split; [reflexivity |]); simpl;
    repeat split; intros; try discriminate; try congruence;
    repeat match goal with H : _ /\ _ |- _ => destruct H end;
    try discriminate.
Qed.

Lemma V11_config_only_purity_witness :
  readable corpus_readable
  /\ exists r,
       V11_rest._validate_config_only_rules corpus_readable "titanic"
         (V11.mkScenarioDefinition "titanic" CONFIG_ONLY "LOW"
            "data-science-team@company.com" "Historical passenger data") []
       = Ok (tt, [] ++ [r])
       /\ check_name r = "config_only_purity"
       /\ details r
          = flat_map
              (fun g =>
                 map (fun f =>
                        ("Found reference in " ++ snd g ++ ": " ++ f)%string)
                   (citing corpus_readable "titanic" (fst g)))
              [ ("src/services/**/*.py", "service");
                ("src/business/**/*.py", "business");
                ("src/analytics/**/*.py", "analytics") ]
       /\ file_references r = []
       /\ (details r = [] <-> status r = "PASS" /\ violation_type r = INFO)
       /\ (details r <> [] <->
           status r = "FAIL" /\ violation_type r = CRITICAL).
Proof.
  split; [exact corpus_readable_readable |].
  exact (V11_config_only_purity corpus_readable "titanic"
           (V11.mkScenarioDefinition "titanic" CONFIG_ONLY "LOW"
              "data-science-team@company.com" "Historical passenger data")
           [] corpus_readable_readable).
Defined.

(** ** The code-separation check of the earlier version *)

Lemma scan_file_11_readable (w : World) (db ct : string) d f :
  readable w ->
  V11_rest.scan_file w db ct d f
  = Ok (if cites w db f then dict_append ct f d else d).
Proof.
  intros R. unfold V11_rest.scan_file, cites, references.
  destruct (path_exists w f) eqn:E; [| reflexivity].
  destruct (R f E) as (content & ->). reflexivity.
Qed.

Lemma scan_files_11_last (w : World) (db ct : string) files :
  readable w ->
  forall found v,
    ~ In ct (keys found) ->
    fold_res (V11_rest.scan_file w db ct) files (found ++ [(ct, v)])
    = Ok (found ++ [(ct, v ++ filter (cites w db) files)]).
Proof.
  intros R. induction files as [| f files IH]; simpl; intros found v N.
  - now rewrite app_nil_r.
  - rewrite (scan_file_11_readable w db ct _ f R).
    destruct (cites w db f).
    + rewrite dict_append_last by assumption.
      rewrite IH by assumption. now rewrite <- app_assoc.
    + now apply IH.
Qed.

Lemma scan_files_11_fresh (w : World) (db ct : string) files :
  readable w ->
  forall found,
    ~ In ct (keys found) ->
    fold_res (V11_rest.scan_file w db ct) files found
    = Ok (found ++ entry_of ct (filter (cites w db) files)).
Proof.
  intros R. induction files as [| f files IH]; simpl; intros found N.
  - now rewrite app_nil_r.
  - rewrite (scan_file_11_readable w db ct _ f R).
    destruct (cites w db f).
    + rewrite dict_append_fresh by assumption.
      now rewrite scan_files_11_last by assumption.
    + now apply IH.
Qed.

Lemma scan_patterns_11 (w : World) (db : string) l :
  readable w ->
  forall found,
    NoDup (map snd l) ->
    (forall k, In k (keys found) -> ~ In k (map snd l)) ->
    fold_res (V11_rest.scan_pattern w db) l found
    = Ok (found
          ++ flat_map (fun e => entry_of (snd e) (citing w db (fst e))) l).
Proof.
  intros R. induction l as [| [pattern ct] l IH]; simpl; intros found ND D.
  - now rewrite app_nil_r.
  - inversion ND as [| ? ? Nin ND']; subst.
    rewrite scan_files_11_fresh;
      [| assumption | intros I; apply (D _ I); now left].
    rewrite IH; [now rewrite <- app_assoc | assumption |].
    intros k I. unfold keys in I. rewrite map_app, in_app_iff in I.
    destruct I as [I | I].
    + intros I'. apply (D _ I). now right.
    + apply keys_entry_of in I. now subst.
Qed.

Lemma find_code_references_readable (w : World) (db : string) :
  readable w ->
  V11_rest.find_code_references w db
  = Ok (flat_map (fun e => entry_of (snd e) (citing w db (fst e)))
          V11_rest.app_code_patterns).
Proof.
  intros R. unfold V11_rest.find_code_references.
  rewrite scan_patterns_11; [reflexivity | assumption | | intros k []].
  simpl. repeat constructor; simpl; intuition discriminate.
Qed.

Lemma Permutation_filter_bool {A} (f : A -> bool) (l l' : list A) :
  Permutation l l' -> Permutation (filter f l) (filter f l').
Proof.
  induction 1 as [| x l l' _ IH | x y l | l l' l'' _ IH1 _ IH2]; simpl.
  - constructor.
  - destruct (f x); [now constructor | exact IH].
  - destruct (f x), (f y); try reflexivity. apply perm_swap.
  - now transitivity (filter f l').
Qed.

Lemma truthy_Permutation {A} (l l' : list A) :
  Permutation l l' -> truthy l = truthy l'.
Proof.
  intros P. destruct l, l'; try reflexivity.
  - now apply Permutation_nil in P.
  - symmetry in P. now apply Permutation_nil in P.
Qed.



(** * Enumeration order *)

Section SameFiles.
Variables w w' : World.
Hypothesis same : same_files w w'.

Lemma same_references (db p : string) :
  references w db p = references w' db p.
Proof.
  destruct same as (_ & R & _). unfold references. now rewrite (R p).
Qed.

Lemma same_matching (db d : string) :
  Permutation (matching w db d) (matching w' db d).
Proof.
  destruct same as (E & _ & _ & G & _). unfold matching. rewrite <- (E d).
  destruct (path_exists w d); [| constructor].
  rewrite (filter_ext _ _ (same_references db)).
  apply Permutation_filter_bool, G.
Qed.

Lemma same_entry_of (ct : string) (m m' : list string) :
  Permutation m m' -> same_entries (entry_of ct m) (entry_of ct m').
Proof.
  intros P. destruct m as [| x m], m' as [| x' m']; simpl.
  - constructor.
  - now apply Permutation_nil in P.
  - symmetry in P. now apply Permutation_nil in P.
  - constructor; [now split | constructor].
Qed.

Lemma same_entries_scan (db : string) (l : list (string * string)) :
  same_entries (entries w db l) (entries w' db l).
Proof.
  induction l as [| [d ct] l IH]; simpl; [constructor |].
  apply Forall2_app; [| exact IH].
  apply same_entry_of, same_matching.
Qed.

Lemma same_blocking (db : string) (sc : ScenarioType) :
  blocking w db sc = blocking w' db sc.
Proof.
  unfold blocking. rewrite !forbidden_evidence.
  assert (M : forall d, truthy (matching w db d) = truthy (matching w' db d)).
  { intros d. apply truthy_Permutation, same_matching. }
  assert (I : truthy (infrastructure_evidence w db)
              = truthy (infrastructure_evidence w' db)).
  { apply truthy_Permutation. unfold infrastructure_evidence.
    rewrite (filter_ext _ _ (same_references db)).
    apply Permutation_filter_bool.
    destruct same as (_ & _ & _ & _ & G).
    induction V12.terraform_patterns as [| p l IH]; simpl; [constructor |].
    apply Permutation_app; [apply G | exact IH]. }
  assert (G : truthy (glob w (monitor_pattern db))
              = truthy (glob w' (monitor_pattern db))).
  { destruct same as (_ & _ & _ & _ & G). apply truthy_Permutation, G. }
  rewrite I, G. destruct sc; now rewrite ?M.
Qed.

End SameFiles.

Lemma same_entries_keys (d d' : Dict) : same_entries d d' -> keys d = keys d'.
Proof.
  induction 1 as [| e e' d d' [K _] _ IH]; [reflexivity |].
  simpl. now rewrite K, IH.
Qed.

Lemma same_entries_truthy (d d' : Dict) :
  same_entries d d' -> truthy d = truthy d'.
Proof. destruct 1; reflexivity. Qed.

Lemma same_entries_index (d d' : Dict) (k : string) :
  same_entries d d' -> Permutation (dict_index d k) (dict_index d' k).
Proof.
  unfold dict_index.
  induction 1 as [| [a v] [a' v'] d d' [K P] _ IH]; simpl; [constructor |].
  simpl in K, P. subst a'. destruct (String.eqb k a); [exact P | exact IH].
Qed.

Lemma same_entries_mem (d d' : Dict) (k : string) :
  same_entries d d' -> dict_mem k d = dict_mem k d'.
Proof.
  unfold dict_mem.
  induction 1 as [| [a v] [a' v'] d d' [K P] _ IH]; simpl; [reflexivity |].
  simpl in K. subst a'. destruct (String.eqb k a); [reflexivity | exact IH].
Qed.

Lemma same_entries_values (d d' : Dict) :
  same_entries d d' ->
  Permutation (concat (values d)) (concat (values d')).
Proof.
  induction 1 as [| e e' d d' [_ P] _ IH]; simpl; [constructor |].
  now apply Permutation_app.
Qed.

Lemma same_entries_indexed (d d' : Dict) (l : list string) :
  same_entries d d' ->
  Permutation (concat (map (dict_index d) l))
    (concat (map (dict_index d') l)).
Proof.
  intros S. induction l as [| k l IH]; simpl; [constructor |].
  apply Permutation_app; [now apply same_entries_index | exact IH].
Qed.



(** * Compliance figures *)

Lemma count_results_le (f : ValidationResult -> bool) rs :
  count_results f rs <= length rs.
Proof.
  induction rs as [| r rs IH]; [reflexivity |].
  simpl. destruct (f r); simpl; lia.
Qed.

Lemma count_results_all (f : ValidationResult -> bool) rs :
  count_results f rs = length rs <-> Forall (fun r => f r = true) rs.
Proof.
  induction rs as [| r rs IH]; simpl.
  - split; [constructor | reflexivity].
  - pose proof (count_results_le f rs) as L. destruct (f r) eqn:E; simpl.
    + split.
      * intros H. constructor; [exact E | apply IH; lia].
      * intros H. inversion H; subst. f_equal. now apply IH.
    + split; [lia |]. intros H. inversion H; subst. congruence.
Qed.

Lemma count_results_none (f : ValidationResult -> bool) rs :
  count_results f rs = 0 <-> Forall (fun r => f r = false) rs.
Proof.
  induction rs as [| r rs IH]; simpl.
  - split; [constructor | reflexivity].
  - destruct (f r) eqn:E; simpl.
    + split; [discriminate |]. intros H. inversion H; subst. congruence.
    + rewrite IH. split.
      * intros H. now constructor.
      * intros H. now inversion H.
Qed.

Lemma percentage_full (p t : nat) :
  0 < t -> ((100 * (Z.of_nat p # Pos.of_nat t) == 100)%Q <-> p = t).
Proof.
  intros H.
  assert (E : Z.pos (Pos.of_nat t) = Z.of_nat t).
  { destruct t as [| t]; [lia |].
    now rewrite <- Pos.of_nat_succ, Zpos_P_of_succ_nat, Nat2Z.inj_succ. }
  unfold Qeq, Qmult, Qnum, Qden. rewrite !Pos.mul_1_l, E. lia.
Qed.

Lemma percentage_zero (p t : nat) :
  0 < t -> ((100 * (Z.of_nat p # Pos.of_nat t) == 0)%Q <-> p = 0).
Proof.
  intros H. unfold Qeq, Qmult, Qnum, Qden. lia.
Qed.

Lemma percentage_pos (p t : nat) :
  0 < t ->
  V12.percentage p t
  = (inject_Z (Z.of_nat p) / inject_Z (Z.of_nat t) * 100)%Q.
Proof. intros H. destruct t; [lia | reflexivity]. Qed.

(** X17. The overall compliance figure of the report lies between 0 and
    100.  On a non-empty result list it is 100 exactly when every result is
    a PASS and 0 exactly when none is; on the empty list it is 0, although
    the run then counts as a success. *)
Theorem V12_overall_compliance (rs : list ValidationResult)
    (c : V12.StatusCounts) :
  V12.count_statuses rs (V12.mkCounts 0 0 0) = Ok c ->
  (0 <= V12.overall_compliance rs c <= 100)%Q
  /\ (rs = [] ->
      V12.overall_compliance rs c = 0%Q
      /\ V12._generate_report rs = Ok (true, rs))
  /\ (rs <> [] ->
      ((V12.overall_compliance rs c == 100)%Q <->
       Forall (fun r => status r = "PASS") rs)
      /\ ((V12.overall_compliance rs c == 0)%Q <->
          Forall (fun r => status r <> "PASS") rs)).
Proof.
  intros E. pose proof (count_statuses_pass rs _ _ E) as P. simpl in P.
  pose proof (count_results_le (fun r => String.eqb (status r) "PASS") rs) as L.
  unfold V12.overall_compliance. rewrite P.
  destruct rs as [| r0 rs0] eqn:Ers.
  - simpl. split; [split; discriminate |].
    split; [intros _; now split | intros H; now destruct H].
  - rewrite <- Ers in *. assert (T : 0 < length rs) by (subst rs; simpl; lia).
    rewrite (percentage_pos _ _ T).
    split; [rewrite (percentage_value _ _ T); now apply percentage_bounds |].
    split; [intros H; subst rs; discriminate | intros _].
    split; rewrite (percentage_value _ _ T).
    + rewrite (percentage_full _ _ T), count_results_all.
      split; intros H; (eapply Forall_impl; [| exact H]); simpl; intros r;
        apply String.eqb_eq.
    + rewrite (percentage_zero _ _ T), count_results_none.
      split; intros H; (eapply Forall_impl; [| exact H]); simpl; intros r;
        apply String.eqb_neq.
Qed.

Lemma V12_overall_compliance_witness :
  V12.count_statuses [result_pass; result_critical] (V12.mkCounts 0 0 0)
  = Ok (V12.mkCounts 1 1 0)
  /\ (0 <= V12.overall_compliance [result_pass; result_critical]
             (V12.mkCounts 1 1 0) <= 100)%Q
  /\ ([result_pass; result_critical] = [] ->
      V12.overall_compliance [result_pass; result_critical]
        (V12.mkCounts 1 1 0) = 0%Q
      /\ V12._generate_report [result_pass; result_critical]
         = Ok (true, [result_pass; result_critical]))
  /\ ([result_pass; result_critical] <> [] ->
      ((V12.overall_compliance [result_pass; result_critical]
          (V12.mkCounts 1 1 0) == 100)%Q <->
       Forall (fun r => status r = "PASS") [result_pass; result_critical])
      /\ ((V12.overall_compliance [result_pass; result_critical]
             (V12.mkCounts 1 1 0) == 0)%Q <->
          Forall (fun r => status r <> "PASS")
            [result_pass; result_critical])).
Proof.
  assert (E : V12.count_statuses [result_pass; result_critical]
                (V12.mkCounts 0 0 0) = Ok (V12.mkCounts 1 1 0))
    by reflexivity.
  split; [exact E |].
  exact (V12_overall_compliance [result_pass; result_critical]
           (V12.mkCounts 1 1 0) E).
Defined.

Lemma scenario_count_partition (f : ValidationResult -> bool) rs :
  count_results (fun r => ScenarioType_eqb (scenario r) CONFIG_ONLY && f r) rs
  + count_results (fun r => ScenarioType_eqb (scenario r) MIXED && f r) rs
  + count_results (fun r => ScenarioType_eqb (scenario r) LOGIC_HEAVY && f r) rs
  = count_results f rs.
Proof.
  induction rs as [| r rs IH]; [reflexivity |].
  simpl. destruct (scenario r), (f r); simpl; lia.
Qed.

Lemma count_results_ext (f g : ValidationResult -> bool) rs :
  (forall r, f r = g r) -> count_results f rs = count_results g rs.
Proof.
  intros H. induction rs as [| r rs IH]; [reflexivity |].
  simpl. now rewrite H, IH.
Qed.

Lemma count_results_true rs : count_results (fun _ => true) rs = length rs.
Proof. induction rs as [| r rs IH]; simpl; [| rewrite IH]; reflexivity. Qed.

(** X18. The per-scenario figures of the earlier version's report
    partition the results: the three totals add up to the number of
    results, the three PASS counts to the number of PASS results, and
    within each scenario the PASS count never exceeds the total. *)
Theorem V11_scenario_compliance_partition (rs : list ValidationResult) :
  V11.total rs CONFIG_ONLY + V11.total rs MIXED + V11.total rs LOGIC_HEAVY
  = length rs
  /\ V11.passes rs CONFIG_ONLY + V11.passes rs MIXED
     + V11.passes rs LOGIC_HEAVY
     = count_results (fun r => String.eqb (status r) "PASS") rs
  /\ (forall sc, V11.passes rs sc <= V11.total rs sc)
  /\ map (fun e => snd e) (V11.scenario_compliance rs)
     = [V11.total rs CONFIG_ONLY; V11.total rs MIXED;
        V11.total rs LOGIC_HEAVY].
Proof.
  assert (P : forall sc,
            V11.passes rs sc
            = count_results
                (fun r => ScenarioType_eqb (scenario r) sc
                          && String.eqb (status r) "PASS") rs).
  { intros sc. unfold V11.passes, V11.scenario_results.
    now rewrite filter_filter_and, length_filter_count. }
  assert (T : forall sc,
            V11.total rs sc
            = count_results (fun r => ScenarioType_eqb (scenario r) sc) rs).
  { intros sc. unfold V11.total, V11.scenario_results.
    now rewrite length_filter_count. }
  split; [| split; [| split]].
  - rewrite !T, <- (count_results_true rs).
    rewrite <- (scenario_count_partition (fun _ => true) rs).
    rewrite !(count_results_ext
                (fun r => ScenarioType_eqb (scenario r) _ && true)
                (fun r => ScenarioType_eqb (scenario r) _) rs
                (fun r => andb_true_r _)).
    reflexivity.
  - rewrite !P. apply scenario_count_partition.
  - intros sc. rewrite P, T. apply count_and_le.
  - reflexivity.
Qed.
